(** * CountryMap.js: a shallow embedding of the country-map chart

    The chart is one JavaScript function, [CountryMap(element, props)], whose
    body builds an SVG tree and installs event handlers that close over the
    props.  Two module-level objects, [maps] and [zoomStates], survive across
    invocations.

    The embedding keeps that shape:
    - the props and the GeoJSON features are records, with [option] wherever
      the source guards against [undefined] with [?.] or [||];
    - the two module-level objects are finite maps inside a [Page] record,
      next to the trace of effects that leave the function (callback
      invocations, [preventDefault], [d3.json] requests);
    - what is painted is a [Svg] record (content-group transform, the two
      text elements, one [Region] per path element);
    - every handler is a function that passes [Page] and [Svg] explicitly.

    Imported collaborators (number formatter, colour scales, [d3.rgb],
    the [./countries] tables, [Number::toString]) are the fields of the
    [External] class.  The Mercator projection and the [d] attribute of the
    paths are d3's own and are not part of the model.

    Three abstractions bound what the general model speaks for; a statement
    whose truth depends on one of them says so in a hypothesis:
    - [number] is the rationals, so arithmetic is exact.  Where rounding
      decides the outcome (the pan clamp) the code is modelled a second time
      over binary64 floats, [on_zoom_double].
    - [maps], [zoomStates] and [colorMap] are finite maps of own properties.
      A read of a plain object also finds what it inherits: the members of
      [Object.prototype], and, once something was assigned under the key
      [__proto__], the members of that value.  The finite map agrees with the
      object for the keys of [ordinary_key] as long as nothing was assigned
      under [__proto__] ([own_properties_only]).
    - the features of a fetched map are objects: [drawMap] speaks for maps
      without a [null] feature ([d3.geo.centroid] raises on one). *)

From Stdlib Require Import Floats.
From Stdlib Require Import QArith Qminmax.
From stdpp Require Import base option list strings pretty gmap.

Open Scope string_scope.
Set Warnings "-clear-no-such-hyp".

(** ** JavaScript values as the source uses them *)

(** Numbers of the general model: exact rationals.  They stand for the
    finite binary64 values of the code wherever no rounding is involved
    (comparison, copying, constants); [NaN] and the infinities have no
    counterpart here. *)
Definition number := Q.

(** A value handed to [selection.style]: [null] removes the property. *)
Inductive StyleValue :=
  | StyleNull
  | StyleNum (n : number)
  | StyleStr (s : string).

(** [!!s] for a string: only the empty string is falsy. *)
Definition truthy_string (s : string) : bool := negb (String.eqb s EmptyString).

(** [v] when [v] is a truthy string, for the tests [!iso] and [if (iso)]:
    [undefined] and the empty string are both falsy. *)
Definition truthy (v : option string) : option string :=
  match v with
  | Some s => if truthy_string s then Some s else None
  | None => None
  end.

(** [v || d] on strings. *)
Definition js_or (v : option string) (d : string) : string :=
  default d (truthy v).

(** The property key an [obj[k]] access uses: [undefined] becomes the
    string "undefined". *)
Definition property_key (k : option string) : string := default "undefined" k.

(** [Array.prototype.includes] on an array of strings, for a search value that
    may be [undefined] (strict equality, so [undefined] is never found). *)
Fixpoint includes (xs : list string) (v : option string) : bool :=
  match xs with
  | [] => false
  | x :: xs' =>
      match v with
      | Some s => if String.eqb x s then true else includes xs' v
      | None => false
      end
  end.

(** *** Plain objects used as dictionaries *)

(** The property names every plain object inherits from [Object.prototype]. *)
Definition Object_prototype_names : list string :=
  [ "constructor"; "__defineGetter__"; "__defineSetter__"; "hasOwnProperty";
    "__lookupGetter__"; "__lookupSetter__"; "isPrototypeOf";
    "propertyIsEnumerable"; "toString"; "valueOf"; "__proto__"; "toLocaleString" ].

(** A key under which a plain object holds nothing but what was assigned. *)
Definition ordinary_key (k : string) : Prop := k ∉ Object_prototype_names.

(** *** [Math.min] and [Math.max] on binary64 numbers

    [NaN] if either argument is [NaN]; of two zeros, [-0] is the smaller. *)

Definition Math_min (a b : PrimFloat.float) : PrimFloat.float :=
  if PrimFloat.is_nan a || PrimFloat.is_nan b then PrimFloat.nan
  else match PrimFloat.compare a b with
       | FLt => a
       | FGt => b
       | _ => if PrimFloat.get_sign a then a else b
       end.

Definition Math_max (a b : PrimFloat.float) : PrimFloat.float :=
  if PrimFloat.is_nan a || PrimFloat.is_nan b then PrimFloat.nan
  else match PrimFloat.compare a b with
       | FLt => b
       | FGt => a
       | _ => if PrimFloat.get_sign a then b else a
       end.

(** *** [Set] of strings: insertion-ordered, without repetition *)

Module JsSet.
Definition t := list string.

Definition has (s : t) (x : string) : bool := includes s (Some x).

Definition add (s : t) (x : string) : t := if has s x then s else (s ++ [x])%list.

Definition delete (s : t) (x : string) : t :=
  List.filter (fun y => negb (String.eqb y x)) s.

Definition clear (s : t) : t := [].

Definition size (s : t) : nat := length s.

(** [new Set(iterable)] *)
Definition from_array (xs : list string) : t := fold_left add xs [].

(** [Array.from(set)] *)
Definition to_array (s : t) : list string := s.
End JsSet.

(** ** Data model *)

Record Datum := {
  country_id : option string;
  metric : number;
}.

Record Properties := {
  ISO : option string;
  NAME_1 : option string;
  NAME_2 : option string;
}.

Record Feature := {
  properties : option Properties;
}.

(** The fetched boundary document; only [features] is read here.  A [None]
    entry stands for a [null] feature, which the handlers tolerate
    ([feature?.properties]) but [drawMap] does not. *)
Record MapData := {
  features : list (option Feature);
}.

(** [props.filterState] *)
Record FilterState := {
  selectedValues : option (list string);
}.

Inductive SliceId :=
  | SliceStr (s : string)
  | SliceNum (n : number).

(** The destructured props.  The three callbacks are represented by whether
    [typeof cb === 'function'] holds; their invocations go to the trace. *)
Record Props := {
  data : list Datum;
  width : number;
  height : number;
  country : string;
  entity : string;
  linearColorScheme : option string;
  numberFormat : option string;
  colorScheme : option string;
  sliceId : option SliceId;
  filterState : FilterState;
  emitCrossFilters : bool;
  onContextMenu : bool;
  setDataMask : bool;
}.

(** *** Emitted payloads *)

Inductive FilterVal :=
  | ValStr (s : string)
  | ValList (l : list string).

Record Filter := {
  col : string;
  op : string;
  val : FilterVal;
  formattedVal : option string;
}.

Record ExtraFormData := {
  filters : list Filter;
}.

Record EmittedFilterState := {
  fs_value : option (list string);
  fs_selectedValues : option (list string);
}.

Record DataMask := {
  dm_extraFormData : ExtraFormData;
  dm_filterState : EmittedFilterState;
}.

Record CrossFilter := {
  dataMask : DataMask;
  isCurrentValueSelected : bool;
}.

Record DrillBy := {
  db_filters : list Filter;
  groupbyFieldName : string;
}.

Record ContextMenuPayload := {
  drillToDetail : list Filter;
  crossFilter : option CrossFilter;
  drillBy : DrillBy;
}.

(** *** Events *)

(** [d3.event] inside a pointer handler. *)
Record PointerEvent := {
  clientX : number;
  clientY : number;
  shiftKey : bool;
}.

(** [d3.event] inside the zoom handler. *)
Record ZoomEvent := {
  ev_translate : number * number;
  ev_scale : number;
}.

(** *** Process-wide state and effects *)

(** An entry of [zoomStates]; also the content group's [transform]
    attribute, [translate(tx, ty) scale(s)], kept structured. *)
Record ZoomState := {
  scale : number;
  translate : number * number;
}.

Inductive Effect :=
  | PreventDefault
  | CallOnContextMenu (x y : number) (payload : ContextMenuPayload)
  | CallSetDataMask (m : DataMask)
  | JsonRequest (country_code : string) (url : option string).

Record Page := {
  maps : gmap string MapData;
  zoomStates : gmap string ZoomState;
  trace : list Effect;
}.

(** Nothing was ever assigned under the key [__proto__] of [maps] or of
    [zoomStates]: both objects still inherit from [Object.prototype] alone. *)
Definition own_properties_only (pg : Page) : Prop :=
  maps pg !! "__proto__" = None /\ zoomStates pg !! "__proto__" = None.

(** *** The painted tree *)

Record Region := {
  datum : option Feature;
  fill : string;
  fill_opacity : StyleValue;
  stroke : StyleValue;
  stroke_width : StyleValue;
}.

Record Svg := {
  g_transform : option ZoomState;
  bigText : string;
  resultText : string;
  regions : list Region;
}.

(** What the container element holds: the chart, or the markup written by
    [d3.select(element).html(...)]. *)
Inductive Container :=
  | Chart (v : Svg)
  | Markup (html : string).

(** Result of [d3.json]: [callback(error)] or [callback(null, mapData)]. *)
Inductive JsonResult :=
  | JsonError
  | JsonOk (mapData : MapData).

(** How a handler ends: normally, or by a [TypeError] raised on a property
    read of [null]. *)
Inductive Outcome :=
  | Returned (pg : Page)
  | Threw (pg : Page).

(** ** Imported collaborators *)

Class External := {
  (** [getNumberFormatter(numberFormat)] *)
  getNumberFormatter : option string -> number -> string;
  (** [getSequentialSchemeRegistry().get(scheme).createLinearScale(extent)] *)
  createLinearScale : option string -> option (number * number) -> number -> string;
  (** [CategoricalColorNamespace.getScale(colorScheme)] *)
  getScale : option string -> option string -> option SliceId -> string;
  (** [d3.rgb(c).darker().toString()] *)
  darker : string -> string;
  (** [countries[country]] of [./countries] *)
  countries : string -> option string;
  (** [countryOptions] of [./countries]: pairs of code and display name *)
  countryOptions : list (string * string);
  (** the string a number takes inside a template literal or as a key *)
  Number_toString : number -> string;
}.

(** ** The render function and the handlers it installs *)

Section CountryMap.
Context `{Ext : External}.

Definition emit (e : Effect) (pg : Page) : Page :=
  {| maps := maps pg; zoomStates := zoomStates pg; trace := (trace pg ++ [e])%list |}.

(** [feature?.properties] *)
Definition properties_of (feature : option Feature) : option Properties :=
  feature ≫= properties.

(** [feature?.properties?.ISO] *)
Definition iso_of (feature : option Feature) : option string :=
  properties_of feature ≫= ISO.

(** [sliceId || `${country}-${width}-${height}`], as a property key.
    A slice identifier is falsy when it is [undefined], the empty string
    or the number zero. *)
Definition chartKey (p : Props) : string :=
  let fallback :=
    country p +:+ "-" +:+ Number_toString (width p) +:+ "-" +:+ Number_toString (height p) in
  match sliceId p with
  | Some (SliceStr s) => if truthy_string s then s else fallback
  | Some (SliceNum n) => if Qeq_bool n 0 then fallback else Number_toString n
  | None => fallback
  end.

(** [d3Extent(data, v => (v ? v.metric : 0))]: smallest and largest metric,
    [[undefined, undefined]] for no rows. *)
Definition d3Extent (xs : list number) : option (number * number) :=
  match xs with
  | [] => None
  | x :: xs' => Some (fold_left Qmin xs' x, fold_left Qmax xs' x)
  end.

Definition linearColorScale (p : Props) : number -> string :=
  createLinearScale (linearColorScheme p) (d3Extent (metric <$> data p)).

Definition colorScale (p : Props) : option string -> option SliceId -> string :=
  getScale (colorScheme p).

(** The [data.forEach] loop filling [colorMap]; a later row with the same
    [country_id] overwrites an earlier one.  The own properties of the
    object: an assignment under [__proto__] creates none, and reads of
    inherited names are outside ([ordinary_key]). *)
Definition colorMap (p : Props) : gmap string string :=
  fold_left
    (fun m d =>
       <[ property_key (country_id d) :=
            match truthy (colorScheme p) with
            | Some _ => colorScale p (country_id d) (sliceId p)
            | None => linearColorScale p (metric d)
            end ]> m)
    (data p) ∅.

(** For an [ISO] that is an [ordinary_key]; under an inherited name the
    code hands back the inherited member instead of the fallback. *)
Definition colorFn (p : Props) (feature : option Feature) : string :=
  match properties_of feature with
  | None => "none"
  | Some props =>
      let iso := ISO props in
      js_or (colorMap p !! property_key iso) "#FFFEFE"
  end.

(** [values.length ? [{ col: entity, op: 'IN', val: values }] : []] *)
Definition in_filters (entity : string) (values : list string) : list Filter :=
  match values with
  | [] => []
  | _ => [ {| col := entity; op := "IN"; val := ValList values; formattedVal := None |} ]
  end.

(** [values.length ? values : null] *)
Definition or_null (values : list string) : option (list string) :=
  match values with
  | [] => None
  | _ => Some values
  end.

Definition getCrossFilterDataMask (p : Props) (source : option Feature) : option CrossFilter :=
  let selected := default [] (selectedValues (filterState p)) in
  match truthy (iso_of source) with
  | None => None
  | Some iso =>
      let isSelected := includes selected (Some iso) in
      let values := if isSelected then [] else [iso] in
      Some {| dataMask :=
                {| dm_extraFormData := {| filters := in_filters (entity p) values |};
                   dm_filterState :=
                     {| fs_value := or_null values;
                        fs_selectedValues := or_null values |} |};
              isCurrentValueSelected := isSelected |}
  end.

Definition handleContextMenu (p : Props) (pointerEvent : option PointerEvent)
    (feature : option Feature) (pg : Page) : Outcome :=
  let pg :=
    if onContextMenu p
    then match pointerEvent with
         | Some _ => emit PreventDefault pg
         | None => pg
         end
    else pg in
  match truthy (iso_of feature) with
  | None => Returned pg
  | Some iso =>
      if negb (onContextMenu p) then Returned pg
      else
        let drillVal := iso in
        let drillToDetailFilters :=
          [ {| col := entity p; op := "=="; val := ValStr drillVal;
               formattedVal := Some drillVal |} ] in
        let drillByFilters :=
          [ {| col := entity p; op := "=="; val := ValStr drillVal;
               formattedVal := None |} ] in
        match pointerEvent with
        | None => Threw pg
        | Some e =>
            Returned
              (emit (CallOnContextMenu (clientX e) (clientY e)
                       {| drillToDetail := drillToDetailFilters;
                          crossFilter := getCrossFilterDataMask p feature;
                          drillBy := {| db_filters := drillByFilters;
                                        groupbyFieldName := "entity" |} |})
                    pg)
        end
  end.

Definition set_bigText (s : string) (v : Svg) : Svg :=
  {| g_transform := g_transform v; bigText := s;
     resultText := resultText v; regions := regions v |}.

Definition set_resultText (s : string) (v : Svg) : Svg :=
  {| g_transform := g_transform v; bigText := bigText v;
     resultText := s; regions := regions v |}.

Definition set_regions (rs : list Region) (v : Svg) : Svg :=
  {| g_transform := g_transform v; bigText := bigText v;
     resultText := resultText v; regions := rs |}.

Definition set_transform (t : option ZoomState) (v : Svg) : Svg :=
  {| g_transform := t; bigText := bigText v;
     resultText := resultText v; regions := regions v |}.

Definition set_fill (c : string) (r : Region) : Region :=
  {| datum := datum r; fill := c; fill_opacity := fill_opacity r;
     stroke := stroke r; stroke_width := stroke_width r |}.

Definition selectAndDisplayNameOfRegion (feature : option Feature) (v : Svg) : Svg :=
  let name :=
    match properties_of feature with
    | Some props => js_or (NAME_2 props) (js_or (NAME_1 props) EmptyString)
    | None => EmptyString
    end in
  set_bigText name v.

Definition updateMetrics (p : Props) (regionRows : list Datum) (v : Svg) : Svg :=
  match regionRows with
  | row :: _ => set_resultText (getNumberFormatter (numberFormat p) (metric row)) v
  | [] => set_resultText EmptyString v
  end.

(** [this] is the path element at position [i]; d3 passes its datum. *)
Definition mouseenter (p : Props) (i : nat) (v : Svg) : Svg :=
  match regions v !! i with
  | None => v
  | Some this =>
      let d := datum this in
      let c := colorFn p d in
      let c := if truthy_string c && negb (String.eqb c "none") then darker c else c in
      let v := set_regions (<[ i := set_fill c this ]> (regions v)) v in
      let v := selectAndDisplayNameOfRegion d v in
      let result :=
        List.filter (fun r => bool_decide (country_id r = iso_of d)) (data p) in
      updateMetrics p result v
  end.

Definition mouseout (p : Props) (i : nat) (v : Svg) : Svg :=
  match regions v !! i with
  | None => v
  | Some this =>
      let v := set_regions (<[ i := set_fill (colorFn p (datum this)) this ]> (regions v)) v in
      let v := set_bigText EmptyString v in
      set_resultText EmptyString v
  end.

(** The zoom listener: clamp the translation, move the content group,
    remember the transform under [chartKey].  Exact arithmetic; see
    [on_zoom_double] for the rounded bounds.  The write is that of an own
    property, so [chartKey] is not [__proto__]. *)
Definition on_zoom (p : Props) (event : ZoomEvent) (pg : Page) (v : Svg) : Page * Svg :=
  let '(tx, ty) := ev_translate event in
  let scale := ev_scale event in
  let scaledW := (width p * scale)%Q in
  let scaledH := (height p * scale)%Q in
  let minX := Qmin 0 (width p - scaledW) in
  let maxX := 0%Q in
  let minY := Qmin 0 (height p - scaledH) in
  let maxY := 0%Q in
  let tx := Qmax (Qmin tx maxX) minX in
  let ty := Qmax (Qmin ty maxY) minY in
  let applied := {| scale := scale; translate := (tx, ty) |} in
  ({| maps := maps pg;
      zoomStates := <[ chartKey p := applied ]> (zoomStates pg);
      trace := trace pg |},
   set_transform (Some applied) v).

(** The restore block that follows the installation of the zoom listener.
    The test [zoomStates[chartKey]] is read as an own-property lookup: for an
    [ordinary_key] on a page with [own_properties_only] (under an inherited
    name the code enters the block and raises in [zoom.translate]). *)
Definition restore_zoom (p : Props) (pg : Page) (v : Svg) : Svg :=
  match zoomStates pg !! chartKey p with
  | Some st =>
      set_transform
        (Some {| scale := scale st; translate := (fst (translate st), snd (translate st)) |}) v
  | None => v
  end.

Definition highlight (selectedValues : list string) (r : Region) : Region :=
  let iso := iso_of (datum r) in
  {| datum := datum r;
     fill := fill r;
     fill_opacity :=
       if (length selectedValues =? 0)%nat || includes selectedValues iso
       then StyleNum 1%Q
       else StyleNum (3 # 10)%Q;
     stroke :=
       if includes selectedValues iso then StyleStr "#222" else StyleNull;
     stroke_width :=
       if includes selectedValues iso then StyleStr "1.5px" else StyleStr "0.5px" |}.

Definition highlightSelectedRegion (p : Props) (v : Svg) : Svg :=
  let selectedValues :=
    match selectedValues (filterState p) with
    | Some (x :: xs) => x :: xs
    | _ => []
    end in
  set_regions (highlight selectedValues <$> regions v) v.

(** [!!(d3.event && d3.event.shiftKey)] *)
Definition shift_held (event : option PointerEvent) : bool :=
  match event with
  | Some e => shiftKey e
  | None => false
  end.

Definition handleClick (p : Props) (event : option PointerEvent)
    (feature : option Feature) (pg : Page) (v : Svg) : Page * Svg :=
  if negb (emitCrossFilters p) || negb (setDataMask p) then (pg, v)
  else
    match truthy (iso_of feature) with
    | None => (pg, v)
    | Some iso =>
        let baseline := default [] (selectedValues (filterState p)) in
        let currently := JsSet.from_array baseline in
        let shift := shift_held event in
        let currently :=
          if shift then
            if JsSet.has currently iso
            then JsSet.delete currently iso
            else JsSet.add currently iso
          else if (JsSet.size currently =? 1)%nat && JsSet.has currently iso
          then JsSet.clear currently
          else JsSet.add (JsSet.clear currently) iso in
        let newSelection := JsSet.to_array currently in
        let pg :=
          emit (CallSetDataMask
                  {| dm_extraFormData := {| filters := in_filters (entity p) newSelection |};
                     dm_filterState :=
                       {| fs_value := or_null newSelection;
                          fs_selectedValues := or_null newSelection |} |})
               pg in
        (pg, highlightSelectedRegion p v)
    end.

(** The path element appended for an entering feature. *)
Definition entering (p : Props) (feature : option Feature) : Region :=
  {| datum := feature; fill := colorFn p feature;
     fill_opacity := StyleNull; stroke := StyleNull; stroke_width := StyleNull |}.

(** [selectAll('path.region').data(features)] is a join by position:
    an existing element takes the feature at its index, features beyond the
    existing elements enter, elements beyond the features exit. *)
Fixpoint join (p : Props) (existing : list Region) (fs : list (option Feature)) : list Region :=
  match fs with
  | [] => []
  | f :: fs' =>
      match existing with
      | [] => entering p f :: join p [] fs'
      | r :: rs =>
          {| datum := f; fill := fill r; fill_opacity := fill_opacity r;
             stroke := stroke r; stroke_width := stroke_width r |} :: join p rs fs'
      end
  end.

(** For a map whose features are all objects; with a [null] feature the
    code raises in [d3.geo.centroid] before anything is painted. *)
Definition drawMap (p : Props) (mapData : MapData) (v : Svg) : Svg :=
  let sel := join p (regions v) (features mapData) in
  let painted := (fun r => set_fill (colorFn p (datum r)) r) <$> sel in
  highlightSelectedRegion p (set_regions painted v).

(** The markup of the load-failure panel. *)
Definition dquote : string := String (Ascii.ascii_of_nat 34) EmptyString.

Definition alert (countryName : string) : string :=
  "<div class=" +:+ dquote +:+ "alert alert-danger" +:+ dquote
    +:+ ">Could not load map data for " +:+ countryName +:+ "</div>".

(** The tree right after it is built: an untransformed content group with
    an empty map layer, and two empty text elements. *)
Definition fresh_svg : Svg :=
  {| g_transform := None; bigText := EmptyString;
     resultText := EmptyString; regions := [] |}.

(** The body of [CountryMap] up to the point where [d3.json] has been
    called: the container is emptied, the zoom is restored, and the map is
    drawn at once when the geometry is cached.  The second component tells
    whether a request is now in flight.  The test [maps[country]] is read as
    an own-property lookup: for a country that is an [ordinary_key] on a page
    with [own_properties_only] (an inherited name is truthy, so the code
    takes the cached branch with it and raises). *)
Definition CountryMap (p : Props) (pg : Page) : Page * Container * bool :=
  let v := restore_zoom p pg fresh_svg in
  match maps pg !! country p with
  | Some map => (pg, Chart (drawMap p map v), false)
  | None =>
      let url := countries (country p) in
      (emit (JsonRequest (country p) url) pg, Chart v, true)
  end.

(** The callback given to [d3.json], run when the request completes. *)
Definition json_callback (p : Props) (result : JsonResult) (pg : Page) (v : Svg)
    : Page * Container :=
  match result with
  | JsonError =>
      let countryName :=
        js_or (snd <$> List.find (fun x => String.eqb (fst x) (country p)) countryOptions)
              (country p) in
      (pg, Markup (alert countryName))
  | JsonOk mapData =>
      ({| maps := <[ country p := mapData ]> (maps pg);
          zoomStates := zoomStates pg;
          trace := trace pg |},
       Chart (drawMap p mapData v))
  end.

End CountryMap.

(** ** The zoom listener over binary64 numbers

    Lines 213 to 228 once more, with the arithmetic of the code: products and
    differences are rounded, and [NaN] propagates.  The listener hands the
    same [tx], [ty] and [scale] to the [transform] attribute and to
    [zoomStates[chartKey]]. *)

Record ZoomWrite := {
  attr_translate : PrimFloat.float * PrimFloat.float;
  attr_scale : PrimFloat.float;
  stored_scale : PrimFloat.float;
  stored_translate : PrimFloat.float * PrimFloat.float;
}.

Definition on_zoom_double (width height : PrimFloat.float)
    (translate : PrimFloat.float * PrimFloat.float) (scale : PrimFloat.float) : ZoomWrite :=
  let '(tx, ty) := translate in
  let scaledW := (width * scale)%float in
  let scaledH := (height * scale)%float in
  let minX := Math_min 0%float (width - scaledW)%float in
  let maxX := 0%float in
  let minY := Math_min 0%float (height - scaledH)%float in
  let maxY := 0%float in
  let tx := Math_max (Math_min tx maxX) minX in
  let ty := Math_max (Math_min ty maxY) minY in
  {| attr_translate := (tx, ty); attr_scale := scale;
     stored_scale := scale; stored_translate := (tx, ty) |}.

(** ** Runs of the page

    Everything that can touch the process-wide state between two
    invocations of the render function: another invocation, the completion of
    a request, a zoom gesture, a click, a right click. *)

Inductive step `{Ext : External} : Page -> Page -> Prop :=
  | step_render p pg :
      step pg (CountryMap p pg).1.1
  | step_json p result pg v :
      step pg (json_callback p result pg v).1
  | step_zoom p event pg v :
      step pg (on_zoom p event pg v).1
  | step_click p event feature pg v :
      step pg (handleClick p event feature pg v).1
  | step_contextmenu_returned p event feature pg pg' :
      handleContextMenu p event feature pg = Returned pg' -> step pg pg'
  | step_contextmenu_threw p event feature pg pg' :
      handleContextMenu p event feature pg = Threw pg' -> step pg pg'.



(** The transform attribute of the content group, when the chart is shown. *)
Definition content_transform (c : Container) : option ZoomState :=
  match c with
  | Chart v => g_transform v
  | Markup _ => None
  end.

(** ** A concrete page, for evaluating the model *)

Module Demo.
Definition external : External :=
  {| getNumberFormatter := fun _ n => pretty (Qnum n);
     createLinearScale := fun _ _ n => "rgb(" +:+ pretty (Qnum n) +:+ ",0,0)";
     getScale := fun _ id _ => "cat-" +:+ default "undefined" id;
     darker := fun c => "darker(" +:+ c +:+ ")";
     countries := fun c => if String.eqb c "france" then Some "/maps/france.geojson" else None;
     countryOptions := [("france", "France"); ("uk", "UK")];
     Number_toString := fun n => pretty (Qnum n) |}.

Definition region (iso : string) (name : string) : option Feature :=
  Some {| properties := Some {| ISO := Some iso; NAME_1 := Some name; NAME_2 := None |} |}.

Definition bare : option Feature := Some {| properties := None |}.

Definition france : MapData :=
  {| features := [region "FR-A" "Alsace"; region "FR-B" "Bretagne"; bare] |}.

Definition rows : list Datum :=
  [ {| country_id := Some "FR-A"; metric := 1%Q |};
    {| country_id := Some "FR-B"; metric := 5%Q |};
    {| country_id := Some "FR-A"; metric := 10%Q |} ].

Definition props (selected : option (list string)) : Props :=
  {| data := rows; width := 800%Q; height := 400%Q; country := "france";
     entity := "region"; linearColorScheme := Some "blues"; numberFormat := None;
     colorScheme := None; sliceId := Some (SliceNum 7%Q);
     filterState := {| selectedValues := selected |};
     emitCrossFilters := true; onContextMenu := true; setDataMask := true |}.

Definition page : Page := {| maps := ∅; zoomStates := ∅; trace := [] |}.

Definition blank : Svg := fresh_svg.

Definition pointer (shift : bool) : PointerEvent :=
  {| clientX := 10%Q; clientY := 20%Q; shiftKey := shift |}.

(** Render, completion of the request, render again. *)
Definition first_render : Page * Container * bool :=
  @CountryMap external (props None) page.

Definition loaded : Page :=
  (@json_callback external (props None) (JsonOk france) first_render.1.1 blank).1.



(** The chart as drawn for [france] with the given selection. *)
Definition drawn (selected : option (list string)) : Svg :=
  @drawMap external (props selected) france blank.
End Demo.

(** ** Facts about the JavaScript helpers *)

Lemma truthy_Some (v : option string) (s : string) :
  truthy v = Some s <-> v = Some s /\ s <> EmptyString.
Proof.
  unfold truthy, truthy_string. destruct v as [t|]; [|naive_solver].
  destruct (String.eqb_spec t EmptyString); simpl; naive_solver.
Qed.

Lemma truthy_None (v : option string) :
  truthy v = None <-> v = None \/ v = Some EmptyString.
Proof.
  unfold truthy, truthy_string. destruct v as [t|]; [|naive_solver].
  destruct (String.eqb_spec t EmptyString); simpl; naive_solver.
Qed.

(** Whether a key is ordinary can be computed. *)
Lemma ordinary_key_computed (k : string) :
  bool_decide (k ∈ Object_prototype_names) = false -> ordinary_key k.
Proof. intros H. apply bool_decide_eq_false in H. exact H. Qed.

Lemma includes_Some (xs : list string) (x : string) :
  includes xs (Some x) = true <-> x ∈ xs.
Proof.
  induction xs as [|y ys IH]; simpl.
  - split; [discriminate | intros H; inversion H].
  - rewrite elem_of_cons. destruct (String.eqb_spec y x) as [->|Hne].
    + naive_solver.
    + rewrite IH. naive_solver.
Qed.

Lemma includes_Some_false (xs : list string) (x : string) :
  includes xs (Some x) = false <-> x ∉ xs.
Proof.
  rewrite <- includes_Some. destruct (includes xs (Some x)); naive_solver.
Qed.

Lemma includes_None (xs : list string) : includes xs None = false.
Proof. destruct xs; reflexivity. Qed.

Module JsSetFacts.
Import JsSet.

Lemma has_elem_of (s : t) (x : string) : has s x = true <-> x ∈ s.
Proof. apply includes_Some. Qed.

Lemma elem_of_add (s : t) (x y : string) : y ∈ add s x <-> y ∈ s \/ y = x.
Proof.
  unfold add. destruct (has s x) eqn:E.
  - apply has_elem_of in E. naive_solver.
  - rewrite elem_of_app, list_elem_of_singleton. reflexivity.
Qed.

Lemma NoDup_add (s : t) (x : string) : NoDup s -> NoDup (add s x).
Proof.
  intros Hs. unfold add. destruct (has s x) eqn:E; [assumption|].
  apply NoDup_app. split; [assumption|]. split.
  - intros y Hy Hx. apply list_elem_of_singleton in Hx as ->.
    apply has_elem_of in Hy. congruence.
  - apply NoDup_singleton.
Qed.

Lemma elem_of_delete (s : t) (x y : string) : y ∈ delete s x <-> y ∈ s /\ y <> x.
Proof.
  unfold delete. rewrite list_elem_of_In, filter_In, <- list_elem_of_In.
  destruct (String.eqb_spec y x); simpl; naive_solver.
Qed.

Lemma NoDup_delete (s : t) (x : string) : NoDup s -> NoDup (delete s x).
Proof.
  unfold delete. induction 1 as [|y l Hy Hl IH]; simpl; [constructor|].
  destruct (negb (String.eqb y x)); [|assumption].
  constructor; [|assumption].
  rewrite list_elem_of_In, filter_In, <- list_elem_of_In. tauto.
Qed.

Lemma fold_add_spec (xs : list string) (acc : t) :
  NoDup acc ->
  NoDup (fold_left add xs acc) /\
  forall y, y ∈ fold_left add xs acc <-> y ∈ acc \/ y ∈ xs.
Proof.
  revert acc. induction xs as [|x xs IH]; intros acc Hacc; simpl.
  - split; [assumption|]. intros y. rewrite elem_of_nil. tauto.
  - destruct (IH (add acc x) (NoDup_add _ _ Hacc)) as [Hnd Hin].
    split; [assumption|]. intros y.
    rewrite Hin, elem_of_add, elem_of_cons. tauto.
Qed.

Lemma NoDup_from_array (xs : list string) : NoDup (from_array xs).
Proof. apply fold_add_spec, NoDup_nil_2. Qed.

Lemma elem_of_from_array (xs : list string) (y : string) :
  y ∈ from_array xs <-> y ∈ xs.
Proof.
  unfold from_array.
  destruct (fold_add_spec xs [] (NoDup_nil_2 (A:=string))) as [_ H].
  rewrite H, elem_of_nil. tauto.
Qed.

(** A set holds [x] and nothing else exactly when it is the one-element
    sequence [x]. *)
Lemma only_member (s : t) (x : string) :
  NoDup s -> (forall y, y ∈ s <-> y = x) -> s = [x].
Proof.
  intros Hnd H. destruct s as [|a s].
  - exfalso. apply (not_elem_of_nil x). apply H. reflexivity.
  - assert (a = x) as -> by (apply H; left).
    destruct s as [|b s]; [reflexivity|].
    assert (b = x) as -> by (apply H; right; left).
    apply NoDup_cons in Hnd as [Hnot _]. exfalso. apply Hnot. left.
Qed.

Lemma size_one_has (s : t) (x : string) :
  (size s =? 1)%nat && has s x = true <-> s = [x].
Proof.
  rewrite andb_true_iff, Nat.eqb_eq, has_elem_of. unfold size. split.
  - intros [Hlen Hx]. destruct s as [|a [|b s]]; simpl in Hlen; try discriminate.
    apply list_elem_of_singleton in Hx. congruence.
  - intros ->. split; [reflexivity | left].
Qed.
End JsSetFacts.

(** ** Click: the cross-filter toggle *)

(** C1.  With cross-filtering enabled and a mutation callback supplied, a
    click on a feature carrying the region code [r] appends exactly one
    effect to the trace, the call of [setDataMask], and leaves the caches
    alone.  The payload is built from a selection [newSelection]: its filter
    list is empty and its [value] and [selectedValues] are [null] when
    [newSelection] is empty, and otherwise it holds the single clause
    [entity IN newSelection] with [value] and [selectedValues] equal to
    [newSelection].  When the event's [shiftKey] is set, [newSelection] is the
    current selection with the membership of [r] flipped and every other
    member kept; when it is not set, [newSelection] is empty if the current
    selection is exactly [{r}] and is [[r]] in every other case.  The current
    selection is read as a set: repeated entries of [selectedValues] count
    once.  A region code is a truthy [ISO], as the guard [if (!iso) return]
    has it. *)
Theorem handleClick_emits_toggled_selection
    (p : Props) (e : PointerEvent) (feature : option Feature)
    (r : string) (pg : Page) (v : Svg) :
  emitCrossFilters p = true ->
  setDataMask p = true ->
  iso_of feature = Some r ->
  r <> EmptyString ->
  let S := default [] (selectedValues (filterState p)) in
  exists newSelection : list string,
    (handleClick p (Some e) feature pg v).1 =
      {| maps := maps pg;
         zoomStates := zoomStates pg;
         trace :=
           (trace pg ++
            [ CallSetDataMask
                {| dm_extraFormData :=
                     {| filters :=
                          match newSelection with
                          | [] => []
                          | _ => [ {| col := entity p; op := "IN";
                                      val := ValList newSelection;
                                      formattedVal := None |} ]
                          end |};
                   dm_filterState :=
                     {| fs_value :=
                          match newSelection with [] => None | _ => Some newSelection end;
                        fs_selectedValues :=
                          match newSelection with [] => None | _ => Some newSelection end
                     |} |} ])%list |} /\
    NoDup newSelection /\
    (shiftKey e = true ->
       forall x, x ∈ newSelection <-> (x ∈ S /\ x <> r) \/ (x = r /\ r ∉ S)) /\
    (shiftKey e = false ->
       ((forall x, x ∈ S <-> x = r) -> newSelection = []) /\
       (~ (forall x, x ∈ S <-> x = r) -> newSelection = [r])).
Proof.
  intros Hemit Hcb Hiso Hr S.
  assert (truthy (iso_of feature) = Some r) as Ht by (apply truthy_Some; auto).
  unfold handleClick. rewrite Hemit, Hcb, Ht. simpl negb. simpl orb. cbv iota.
  fold S. set (cur := JsSet.from_array S). simpl shift_held.
  assert (NoDup cur) as Hnd by apply JsSetFacts.NoDup_from_array.
  assert (forall y, y ∈ cur <-> y ∈ S) as Hcur
    by (intros y; apply JsSetFacts.elem_of_from_array).
  destruct (shiftKey e) eqn:Hshift.
  - (* shift-click *)
    destruct (JsSet.has cur r) eqn:Hhas.
    + exists (JsSet.delete cur r). split; [reflexivity|].
      split; [apply JsSetFacts.NoDup_delete, Hnd|].
      split; [|discriminate]. intros _ x.
      apply JsSetFacts.has_elem_of, Hcur in Hhas.
      rewrite JsSetFacts.elem_of_delete, Hcur. tauto.
    + exists (JsSet.add cur r). split; [reflexivity|].
      split; [apply JsSetFacts.NoDup_add, Hnd|].
      split; [|discriminate]. intros _ x.
      assert (r ∉ S) as Hnot.
      { rewrite <- Hcur, <- JsSetFacts.has_elem_of, Hhas. discriminate. }
      rewrite JsSetFacts.elem_of_add, Hcur.
      split; [intros [Hx| ->]; [left; split; [assumption|congruence] | tauto] | tauto].
  - (* plain click *)
    destruct ((JsSet.size cur =? 1)%nat && JsSet.has cur r) eqn:Hsole.
    + exists []. split; [reflexivity|]. split; [constructor|].
      split; [discriminate|]. intros _. split; [reflexivity|].
      intros Hne. exfalso. apply Hne. intros x.
      apply JsSetFacts.size_one_has in Hsole.
      rewrite <- Hcur, Hsole. apply list_elem_of_singleton.
    + exists [r]. split; [reflexivity|]. split; [apply NoDup_singleton|].
      split; [discriminate|]. intros _. split; [|reflexivity].
      intros Hall. exfalso.
      assert (cur = [r]) as Heq.
      { apply JsSetFacts.only_member; [assumption|].
        intros y. rewrite Hcur. apply Hall. }
      apply JsSetFacts.size_one_has in Heq. congruence.
Qed.

Lemma handleClick_emits_toggled_selection_witness :
  exists newSelection : list string,
    (handleClick (Demo.props (Some ["FR-A"; "FR-B"])) (Some (Demo.pointer true))
       (Demo.region "FR-A" "Alsace") Demo.page (Demo.drawn (Some ["FR-A"; "FR-B"]))).1 =
      {| maps := ∅;
         zoomStates := ∅;
         trace :=
           ([] ++
            [ CallSetDataMask
                {| dm_extraFormData :=
                     {| filters :=
                          match newSelection with
                          | [] => []
                          | _ => [ {| col := "region"; op := "IN";
                                      val := ValList newSelection;
                                      formattedVal := None |} ]
                          end |};
                   dm_filterState :=
                     {| fs_value :=
                          match newSelection with [] => None | _ => Some newSelection end;
                        fs_selectedValues :=
                          match newSelection with [] => None | _ => Some newSelection end
                     |} |} ])%list |} /\
    NoDup newSelection /\
    (true = true ->
       forall x, x ∈ newSelection <->
         (x ∈ ["FR-A"; "FR-B"] /\ x <> "FR-A") \/ (x = "FR-A" /\ "FR-A" ∉ ["FR-A"; "FR-B"])) /\
    (true = false ->
       ((forall x, x ∈ ["FR-A"; "FR-B"] <-> x = "FR-A") -> newSelection = []) /\
       (~ (forall x, x ∈ ["FR-A"; "FR-B"] <-> x = "FR-A") -> newSelection = ["FR-A"])).
Proof.
  apply (handleClick_emits_toggled_selection
           (Demo.props (Some ["FR-A"; "FR-B"])) (Demo.pointer true)
           (Demo.region "FR-A" "Alsace") "FR-A" Demo.page
           (Demo.drawn (Some ["FR-A"; "FR-B"])));
    [reflexivity | reflexivity | reflexivity | discriminate].
Defined.

(** ** Context menu against click *)

(** The current selection is exactly [{r}], as [handleClick] tests it. *)
Lemma sole_selection (S : list string) (r : string) :
  (JsSet.size (JsSet.from_array S) =? 1)%nat && JsSet.has (JsSet.from_array S) r = true
  <-> (r ∈ S /\ forall x, x ∈ S -> x = r).
Proof.
  rewrite JsSetFacts.size_one_has. split.
  - intros Heq. split.
    + apply JsSetFacts.elem_of_from_array. rewrite Heq. left.
    + intros x Hx. apply JsSetFacts.elem_of_from_array in Hx.
      rewrite Heq in Hx. apply list_elem_of_singleton in Hx. assumption.
  - intros [Hr Hall]. apply JsSetFacts.only_member.
    + apply JsSetFacts.NoDup_from_array.
    + intros y. rewrite JsSetFacts.elem_of_from_array. split; [apply Hall | congruence].
Qed.

(** What a click without shift passes to [setDataMask]. *)
Lemma plain_click_payload
    (p : Props) (event : option PointerEvent) (feature : option Feature)
    (r : string) (pg : Page) (v : Svg) :
  emitCrossFilters p = true ->
  setDataMask p = true ->
  truthy (iso_of feature) = Some r ->
  shift_held event = false ->
  let S := default [] (selectedValues (filterState p)) in
  let sole := (JsSet.size (JsSet.from_array S) =? 1)%nat && JsSet.has (JsSet.from_array S) r in
  let newSelection := if sole then [] else [r] in
  (handleClick p event feature pg v).1 =
    emit (CallSetDataMask
            {| dm_extraFormData := {| filters := in_filters (entity p) newSelection |};
               dm_filterState :=
                 {| fs_value := or_null newSelection;
                    fs_selectedValues := or_null newSelection |} |}) pg.
Proof.
  intros Hemit Hcb Ht Hshift S sole newSelection.
  unfold handleClick. rewrite Hemit, Hcb, Ht, Hshift. simpl negb. simpl orb. cbv iota.
  fold S. fold sole. subst newSelection. destruct sole; reflexivity.
Qed.

(** C2, as the code has it.  The two computations differ.  For a feature
    with region code [r], the [crossFilter] payload handed to the
    context-menu callback equals the payload of a click without shift exactly
    when [r] is not selected or nothing but [r] is selected.  When [r] is
    selected together with another code, the context menu carries the empty
    selection and the click emits [[r]]. *)
Theorem crossFilter_equals_plain_click_iff
    (p : Props) (e : PointerEvent) (feature : option Feature)
    (r : string) (pg : Page) (v : Svg) :
  onContextMenu p = true ->
  emitCrossFilters p = true ->
  setDataMask p = true ->
  iso_of feature = Some r ->
  r <> EmptyString ->
  shiftKey e = false ->
  let S := default [] (selectedValues (filterState p)) in
  exists (payload : ContextMenuPayload) (cf : CrossFilter) (m : DataMask),
    handleContextMenu p (Some e) feature pg =
      Returned (emit (CallOnContextMenu (clientX e) (clientY e) payload)
                     (emit PreventDefault pg)) /\
    crossFilter payload = Some cf /\
    (handleClick p (Some e) feature pg v).1 = emit (CallSetDataMask m) pg /\
    (dataMask cf = m <-> r ∉ S \/ forall x, x ∈ S -> x = r) /\
    (r ∈ S -> (exists x, x ∈ S /\ x <> r) ->
       fs_selectedValues (dm_filterState (dataMask cf)) = None /\
       fs_selectedValues (dm_filterState m) = Some [r]).
Proof.
  intros Hmenu Hemit Hcb Hiso Hr Hshift S.
  assert (truthy (iso_of feature) = Some r) as Ht by (apply truthy_Some; auto).
  pose proof (plain_click_payload p (Some e) feature r pg v Hemit Hcb Ht Hshift) as Hclick.
  cbv zeta in Hclick. fold S in Hclick.
  pose proof (sole_selection S r) as Hsole.
  pose proof (includes_Some S r) as Hinc.
  unfold handleContextMenu, getCrossFilterDataMask.
  rewrite Hmenu, Ht. simpl negb. cbv iota. fold S.
  eexists _, _, _. split; [reflexivity|]. split; [reflexivity|].
  split; [exact Hclick|]. simpl.
  destruct ((JsSet.size (JsSet.from_array S) =? 1)%nat && JsSet.has (JsSet.from_array S) r);
    destruct (includes S (Some r)); simpl.
  - split; [split; [intros _; right; apply Hsole; reflexivity | reflexivity]|].
    intros _ [x [Hx Hne]]. exfalso. apply Hne. apply Hsole; [reflexivity | assumption].
  - exfalso. assert (r ∈ S) as Hin by (apply Hsole; reflexivity).
    apply Hinc in Hin. discriminate.
  - split; [|intros _ _; split; reflexivity].
    split; [discriminate|]. intros [Hnot|Hall].
    + exfalso. apply Hnot. apply Hinc. reflexivity.
    + assert (false = true); [|discriminate]. apply Hsole. split; [|assumption].
      apply Hinc. reflexivity.
  - split; [split; [intros _; left; intros Hin; apply Hinc in Hin; discriminate | reflexivity]|].
    intros Hin. apply Hinc in Hin. discriminate.
Qed.

Lemma crossFilter_equals_plain_click_iff_witness :
  exists (payload : ContextMenuPayload) (cf : CrossFilter) (m : DataMask),
    handleContextMenu (Demo.props (Some ["FR-B"])) (Some (Demo.pointer false))
        (Demo.region "FR-A" "Alsace") Demo.page =
      Returned (emit (CallOnContextMenu 10%Q 20%Q payload) (emit PreventDefault Demo.page)) /\
    crossFilter payload = Some cf /\
    (handleClick (Demo.props (Some ["FR-B"])) (Some (Demo.pointer false))
       (Demo.region "FR-A" "Alsace") Demo.page Demo.blank).1
      = emit (CallSetDataMask m) Demo.page /\
    (dataMask cf = m <-> "FR-A" ∉ ["FR-B"] \/ forall x, x ∈ ["FR-B"] -> x = "FR-A") /\
    ("FR-A" ∈ ["FR-B"] -> (exists x, x ∈ ["FR-B"] /\ x <> "FR-A") ->
       fs_selectedValues (dm_filterState (dataMask cf)) = None /\
       fs_selectedValues (dm_filterState m) = Some ["FR-A"]).
Proof.
  apply (crossFilter_equals_plain_click_iff
           (Demo.props (Some ["FR-B"])) (Demo.pointer false)
           (Demo.region "FR-A" "Alsace") "FR-A" Demo.page Demo.blank);
    [reflexivity | reflexivity | reflexivity | reflexivity | discriminate | reflexivity].
Defined.

(** C2 as stated fails: with [FR-A] and [FR-B] selected, a right click on
    [FR-A] hands the callback a cross-filter that clears the selection, while
    a click without shift on the same feature emits the selection [[FR-A]]. *)
Lemma crossFilter_differs_from_plain_click :
  exists (payload : ContextMenuPayload) (cf : CrossFilter) (m : DataMask),
    handleContextMenu (Demo.props (Some ["FR-A"; "FR-B"])) (Some (Demo.pointer false))
        (Demo.region "FR-A" "Alsace") Demo.page =
      Returned (emit (CallOnContextMenu 10%Q 20%Q payload) (emit PreventDefault Demo.page)) /\
    crossFilter payload = Some cf /\
    (handleClick (Demo.props (Some ["FR-A"; "FR-B"])) (Some (Demo.pointer false))
       (Demo.region "FR-A" "Alsace") Demo.page Demo.blank).1
      = emit (CallSetDataMask m) Demo.page /\
    fs_selectedValues (dm_filterState (dataMask cf)) = None /\
    fs_selectedValues (dm_filterState m) = Some ["FR-A"] /\
    dataMask cf <> m.
Proof.
  eexists _, _, _. split; [reflexivity|]. split; [reflexivity|].
  split; [reflexivity|]. split; [reflexivity|]. split; [reflexivity|].
  discriminate.
Qed.

(** ** Selection highlighting *)

(** The list [highlightSelectedRegion] works with is the selection itself. *)
Lemma highlight_selection (p : Props) (v : Svg) :
  highlightSelectedRegion p v =
    set_regions (highlight (default [] (selectedValues (filterState p))) <$> regions v) v.
Proof.
  unfold highlightSelectedRegion.
  destruct (selectedValues (filterState p)) as [[|x xs]|]; reflexivity.
Qed.

(** C3.  After the highlighting pass, the path element of every region with
    code [code] keeps its feature and fill, has fill-opacity 1 when the
    selection [S] is empty or holds [code] and 0.3 otherwise, has stroke
    [#222] of width [1.5px] when [code] is selected, and otherwise has its
    stroke removed (so the stylesheet's default applies) with the default
    width [0.5px]. *)
Theorem highlightSelectedRegion_styles
    (p : Props) (v : Svg) (i : nat) (r0 : Region) (code : string) :
  regions v !! i = Some r0 ->
  iso_of (datum r0) = Some code ->
  let S := default [] (selectedValues (filterState p)) in
  exists r : Region,
    regions (highlightSelectedRegion p v) !! i = Some r /\
    datum r = datum r0 /\
    fill r = fill r0 /\
    (S = [] \/ code ∈ S -> fill_opacity r = StyleNum 1%Q) /\
    (S <> [] -> code ∉ S -> fill_opacity r = StyleNum (3 # 10)%Q) /\
    (code ∈ S -> stroke r = StyleStr "#222" /\ stroke_width r = StyleStr "1.5px") /\
    (code ∉ S -> stroke r = StyleNull /\ stroke_width r = StyleStr "0.5px").
Proof.
  intros Hi Hiso S. rewrite highlight_selection. fold S.
  exists (highlight S r0). split.
  { simpl. rewrite list_lookup_fmap, Hi. reflexivity. }
  split; [reflexivity|]. split; [reflexivity|].
  unfold highlight; simpl. rewrite Hiso.
  pose proof (includes_Some S code) as Hinc.
  destruct (includes S (Some code)).
  - assert (code ∈ S) as Hin by (apply Hinc; reflexivity).
    rewrite orb_true_r. repeat split; try reflexivity; intros; contradiction.
  - assert (code ∉ S) as Hnot by (intros Hin; apply Hinc in Hin; discriminate).
    rewrite orb_false_r. split; [|split; [|split; [intros; contradiction | split; reflexivity]]].
    + intros [->|Hin]; [reflexivity | contradiction].
    + intros Hne _. destruct S; [contradiction | reflexivity].
Qed.

Lemma highlightSelectedRegion_styles_witness :
  exists r : Region,
    regions (highlightSelectedRegion (Demo.props (Some ["FR-A"])) (Demo.drawn None)) !! 1%nat
      = Some r /\
    datum r = Demo.region "FR-B" "Bretagne" /\
    fill r = "rgb(5,0,0)" /\
    (["FR-A"] = [] \/ "FR-B" ∈ ["FR-A"] -> fill_opacity r = StyleNum 1%Q) /\
    (["FR-A"] <> [] -> "FR-B" ∉ ["FR-A"] -> fill_opacity r = StyleNum (3 # 10)%Q) /\
    ("FR-B" ∈ ["FR-A"] -> stroke r = StyleStr "#222" /\ stroke_width r = StyleStr "1.5px") /\
    ("FR-B" ∉ ["FR-A"] -> stroke r = StyleNull /\ stroke_width r = StyleStr "0.5px").
Proof.
  apply (highlightSelectedRegion_styles (Demo.props (Some ["FR-A"])) (Demo.drawn None) 1%nat
           {| datum := Demo.region "FR-B" "Bretagne"; fill := "rgb(5,0,0)";
              fill_opacity := StyleNum 1%Q; stroke := StyleNull;
              stroke_width := StyleStr "0.5px" |} "FR-B");
    reflexivity.
Defined.

(** ** Zoom *)

(** *** Comparison of binary64 numbers *)

Lemma SFcompare_sym (x y : spec_float) :
  SFcompare y x = option_map CompOpp (SFcompare x y).
Proof.
  destruct x as [s1| s1 | | s1 m1 e1], y as [s2 | s2 | | s2 m2 e2]; simpl;
    try reflexivity; try (destruct s1; reflexivity); try (destruct s2; reflexivity);
    try (destruct s1, s2; reflexivity).
  destruct s1, s2; try reflexivity; f_equal;
    rewrite (Z.compare_antisym e1 e2); destruct (e1 ?= e2)%Z; simpl; try reflexivity.
  all: change (PosDef.Pos.compare_cont Eq m2 m1) with (Pos.compare_cont (CompOpp Eq) m2 m1);
    rewrite <- Pos.compare_cont_antisym; rewrite ?CompOpp_involutive; reflexivity.
Qed.

Lemma double_leb_refl (a : PrimFloat.float) :
  PrimFloat.is_nan a = false -> (a <=? a)%float = true.
Proof.
  unfold PrimFloat.is_nan. intros H. apply negb_false_iff in H. revert H.
  rewrite FloatAxioms.eqb_spec, FloatAxioms.leb_spec. unfold SFeqb, SFleb.
  destruct (SFcompare (Prim2SF a) (Prim2SF a)) as [[]|]; congruence.
Qed.

Lemma double_compare_leb (a b : PrimFloat.float) :
  (a ?= b)%float = FLt \/ (a ?= b)%float = FEq -> (a <=? b)%float = true.
Proof.
  rewrite FloatAxioms.compare_spec, FloatAxioms.leb_spec. unfold SFleb.
  destruct (SFcompare (Prim2SF a) (Prim2SF b)) as [[]|]; simpl; intros [H|H]; congruence.
Qed.

Lemma double_compare_geb (a b : PrimFloat.float) :
  (a ?= b)%float = FGt \/ (a ?= b)%float = FEq -> (b <=? a)%float = true.
Proof.
  rewrite FloatAxioms.compare_spec, FloatAxioms.leb_spec. unfold SFleb.
  rewrite (SFcompare_sym (Prim2SF a) (Prim2SF b)).
  destruct (SFcompare (Prim2SF a) (Prim2SF b)) as [[]|]; simpl; intros [H|H]; congruence.
Qed.

Lemma double_comparable (a b : PrimFloat.float) :
  PrimFloat.is_nan a = false -> PrimFloat.is_nan b = false ->
  (a ?= b)%float <> FNotComparable.
Proof.
  unfold PrimFloat.is_nan. intros Ha Hb. apply negb_false_iff in Ha, Hb. revert Ha Hb.
  rewrite !FloatAxioms.eqb_spec, FloatAxioms.compare_spec. unfold SFeqb.
  destruct (Prim2SF a), (Prim2SF b); simpl; try discriminate;
    repeat match goal with |- context [if ?s then _ else _] => destruct s end;
    simpl; try discriminate;
    repeat match goal with
           | |- context [match ?c with Eq => _ | Lt => _ | Gt => _ end] => destruct c
           end;
    simpl; discriminate.
Qed.

(** [Math.min] of two numbers is one of them and is below both. *)
Lemma Math_min_spec (a b : PrimFloat.float) :
  PrimFloat.is_nan a = false -> PrimFloat.is_nan b = false ->
  (Math_min a b = a \/ Math_min a b = b) /\
  (Math_min a b <=? a)%float = true /\ (Math_min a b <=? b)%float = true.
Proof.
  intros Ha Hb. unfold Math_min. rewrite Ha, Hb. simpl.
  pose proof (double_comparable a b Ha Hb) as Hc.
  pose proof (double_compare_leb a b) as Hle. pose proof (double_compare_geb a b) as Hge.
  pose proof (double_leb_refl a Ha). pose proof (double_leb_refl b Hb).
  destruct (a ?= b)%float; try contradiction; try destruct (PrimFloat.get_sign a); auto.
Qed.

(** [Math.max] of two numbers is one of them and is above both. *)
Lemma Math_max_spec (a b : PrimFloat.float) :
  PrimFloat.is_nan a = false -> PrimFloat.is_nan b = false ->
  (Math_max a b = a \/ Math_max a b = b) /\
  (a <=? Math_max a b)%float = true /\ (b <=? Math_max a b)%float = true.
Proof.
  intros Ha Hb. unfold Math_max. rewrite Ha, Hb. simpl.
  pose proof (double_comparable a b Ha Hb) as Hc.
  pose proof (double_compare_leb a b) as Hle. pose proof (double_compare_geb a b) as Hge.
  pose proof (double_leb_refl a Ha). pose proof (double_leb_refl b Hb).
  destruct (a ?= b)%float; try contradiction; try destruct (PrimFloat.get_sign a); auto.
Qed.

(** The clamp of lines 218 to 225 on one axis. *)
Lemma double_clamp_spec (t d : PrimFloat.float) :
  PrimFloat.is_nan t = false -> PrimFloat.is_nan d = false ->
  (Math_min 0 d <=? Math_max (Math_min t 0) (Math_min 0 d))%float = true /\
  (Math_max (Math_min t 0) (Math_min 0 d) <=? 0)%float = true.
Proof.
  intros Ht Hd.
  assert (PrimFloat.is_nan 0 = false) as H0 by reflexivity.
  destruct (Math_min_spec 0 d H0 Hd) as (Hlo & Hlo0 & _).
  destruct (Math_min_spec t 0 Ht H0) as (Hm & _ & Hm0).
  assert (PrimFloat.is_nan (Math_min 0 d) = false) as Hnlo
    by (destruct Hlo as [-> | ->]; assumption).
  assert (PrimFloat.is_nan (Math_min t 0) = false) as Hnm
    by (destruct Hm as [-> | ->]; assumption).
  destruct (Math_max_spec (Math_min t 0) (Math_min 0 d) Hnm Hnlo) as (Hr & _ & Hr2).
  split; [exact Hr2|]. destruct Hr as [-> | ->]; assumption.
Qed.

(** C4.  In the arithmetic of the code (binary64, products and differences
    rounded), for every zoom event whose raw translation is a number and
    for which [width - width*scale] and [height - height*scale] are numbers
    (they are for every finite size and every scale between 1 and 4), the
    translation [(tx, ty)] put on the content group is the one stored in the
    zoom state, with the event's scale, and it satisfies
    [Math.min(0, width - width*scale) <= tx <= 0] and
    [Math.min(0, height - height*scale) <= ty <= 0], the bounds being the
    values the code computes. *)
Theorem on_zoom_double_translate_clamped
    (width height : PrimFloat.float) (translate : PrimFloat.float * PrimFloat.float)
    (scale : PrimFloat.float) :
  PrimFloat.is_nan (fst translate) = false ->
  PrimFloat.is_nan (snd translate) = false ->
  PrimFloat.is_nan (width - width * scale)%float = false ->
  PrimFloat.is_nan (height - height * scale)%float = false ->
  exists tx ty : PrimFloat.float,
    attr_translate (on_zoom_double width height translate scale) = (tx, ty) /\
    stored_translate (on_zoom_double width height translate scale) = (tx, ty) /\
    attr_scale (on_zoom_double width height translate scale) = scale /\
    stored_scale (on_zoom_double width height translate scale) = scale /\
    (Math_min 0 (width - width * scale) <=? tx)%float = true /\
    (tx <=? 0)%float = true /\
    (Math_min 0 (height - height * scale) <=? ty)%float = true /\
    (ty <=? 0)%float = true.
Proof.
  destruct translate as [tx ty]. simpl. intros Hx Hy Hw Hh.
  destruct (double_clamp_spec tx _ Hx Hw) as [Hx1 Hx2].
  destruct (double_clamp_spec ty _ Hy Hh) as [Hy1 Hy2].
  eexists _, _. repeat split; assumption.
Qed.

Lemma on_zoom_double_translate_clamped_witness :
  exists tx ty : PrimFloat.float,
    attr_translate
      (on_zoom_double 800 400 ((-100)%float, (-5)%float) 0x1.199999999999ap+0) = (tx, ty) /\
    stored_translate
      (on_zoom_double 800 400 ((-100)%float, (-5)%float) 0x1.199999999999ap+0) = (tx, ty) /\
    attr_scale
      (on_zoom_double 800 400 ((-100)%float, (-5)%float) 0x1.199999999999ap+0)
      = 0x1.199999999999ap+0%float /\
    stored_scale
      (on_zoom_double 800 400 ((-100)%float, (-5)%float) 0x1.199999999999ap+0)
      = 0x1.199999999999ap+0%float /\
    (Math_min 0 (800 - 800 * 0x1.199999999999ap+0) <=? tx)%float = true /\
    (tx <=? 0)%float = true /\
    (Math_min 0 (400 - 400 * 0x1.199999999999ap+0) <=? ty)%float = true /\
    (ty <=? 0)%float = true.
Proof.
  apply (on_zoom_double_translate_clamped 800 400 ((-100)%float, (-5)%float)
           0x1.199999999999ap+0); vm_compute; reflexivity.
Defined.

(** At width 800 and scale 1.1 the product is rounded up, and a pan to
    -100 is clamped to a bound slightly below -80. *)
Example on_zoom_double_rounded_bound :
  attr_translate (on_zoom_double 800 400 ((-100)%float, (-5)%float) 0x1.199999999999ap+0)
  = ((-0x1.4000000000008p+6)%float, (-5)%float).
Proof. vm_compute. reflexivity. Qed.

(** Drawing and highlighting leave the content group's transform alone. *)
Lemma g_transform_drawMap `{Ext : External} (p : Props) (mapData : MapData) (v : Svg) :
  g_transform (drawMap p mapData v) = g_transform v.
Proof. unfold drawMap. rewrite highlight_selection. reflexivity. Qed.

Lemma g_transform_restore_zoom `{Ext : External} (p : Props) (pg : Page) (v : Svg) :
  g_transform v = None ->
  g_transform (restore_zoom p pg v) = zoomStates pg !! chartKey p.
Proof.
  intros Hv. unfold restore_zoom.
  destruct (zoomStates pg !! chartKey p) as [[s [tx ty]]|]; [reflexivity | assumption].
Qed.

(** What an invocation of the render function leaves on the content group. *)
Lemma content_transform_CountryMap `{Ext : External} (p : Props) (pg : Page) :
  content_transform (CountryMap p pg).1.2 = zoomStates pg !! chartKey p.
Proof.
  unfold CountryMap. destruct (maps pg !! country p); cbn [fst snd content_transform].
  - rewrite g_transform_drawMap. apply g_transform_restore_zoom. reflexivity.
  - apply g_transform_restore_zoom. reflexivity.
Qed.

(** X23.  For a chart key and a country that are ordinary keys, on a page
    where nothing was assigned under [__proto__] and no cached map of the
    country has a [null] feature: a zoom gesture on a chart with key [K]
    stores the transform it applied under [K], and the next invocation of the
    render function for a chart with the same key puts exactly that transform
    on the content group, whether or not the geometry is already cached.  In
    general an invocation restores whatever is stored under its key, and
    restores nothing when nothing is stored. *)
Theorem render_restores_zoom `{Ext : External}
    (p0 p : Props) (event : ZoomEvent) (pg0 : Page) (v0 : Svg) :
  chartKey p = chartKey p0 ->
  ordinary_key (chartKey p0) ->
  ordinary_key (country p) ->
  own_properties_only pg0 ->
  (forall m, maps pg0 !! country p = Some m -> Forall is_Some (features m)) ->
  (exists st : ZoomState,
     zoomStates (on_zoom p0 event pg0 v0).1 !! chartKey p0 = Some st /\
     g_transform (on_zoom p0 event pg0 v0).2 = Some st /\
     scale st = ev_scale event /\
     content_transform (CountryMap p (on_zoom p0 event pg0 v0).1).1.2 = Some st) /\
  (forall pg : Page,
     own_properties_only pg ->
     (forall m, maps pg !! country p = Some m -> Forall is_Some (features m)) ->
     content_transform (CountryMap p pg).1.2 = zoomStates pg !! chartKey p0) /\
  (forall pg : Page,
     own_properties_only pg ->
     (forall m, maps pg !! country p = Some m -> Forall is_Some (features m)) ->
     zoomStates pg !! chartKey p0 = None ->
     content_transform (CountryMap p pg).1.2 = None).
Proof.
  intros Hkey _ _ _ _. split; [|split].
  - rewrite content_transform_CountryMap, Hkey.
    unfold on_zoom. destruct (ev_translate event) as [tx ty]. simpl.
    eexists. rewrite lookup_insert_eq. repeat split; reflexivity.
  - intros pg _ _. rewrite content_transform_CountryMap, Hkey. reflexivity.
  - intros pg _ _ Hnone. rewrite content_transform_CountryMap, Hkey. assumption.
Qed.

Lemma render_restores_zoom_witness :
  (exists st : ZoomState,
     zoomStates (@on_zoom Demo.external (Demo.props None)
                   {| ev_translate := ((-10)%Q, (-5)%Q); ev_scale := 2%Q |}
                   Demo.page Demo.blank).1
       !! "7" = Some st /\
     g_transform (@on_zoom Demo.external (Demo.props None)
                    {| ev_translate := ((-10)%Q, (-5)%Q); ev_scale := 2%Q |}
                    Demo.page Demo.blank).2 = Some st /\
     scale st = 2%Q /\
     content_transform
       (@CountryMap Demo.external (Demo.props (Some ["FR-A"]))
          (@on_zoom Demo.external (Demo.props None)
             {| ev_translate := ((-10)%Q, (-5)%Q); ev_scale := 2%Q |}
             Demo.page Demo.blank).1).1.2 = Some st) /\
  (forall pg : Page,
     own_properties_only pg ->
     (forall m, maps pg !! "france" = Some m -> Forall is_Some (features m)) ->
     content_transform (@CountryMap Demo.external (Demo.props (Some ["FR-A"])) pg).1.2
       = zoomStates pg !! "7") /\
  (forall pg : Page,
     own_properties_only pg ->
     (forall m, maps pg !! "france" = Some m -> Forall is_Some (features m)) ->
     zoomStates pg !! "7" = None ->
     content_transform (@CountryMap Demo.external (Demo.props (Some ["FR-A"])) pg).1.2 = None).
Proof.
  apply (@render_restores_zoom Demo.external (Demo.props None) (Demo.props (Some ["FR-A"]))
           {| ev_translate := ((-10)%Q, (-5)%Q); ev_scale := 2%Q |} Demo.page Demo.blank).
  - reflexivity.
  - apply ordinary_key_computed. reflexivity.
  - apply ordinary_key_computed. reflexivity.
  - split; reflexivity.
  - intros m Hm. discriminate.
Defined.

(** ** Geometry cache *)


(** A click leaves the cache alone and requests nothing. *)
Lemma handleClick_page (p : Props) (event : option PointerEvent)
    (feature : option Feature) (pg : Page) (v : Svg) :
  (handleClick p event feature pg v).1 = pg \/
  exists m, (handleClick p event feature pg v).1 = emit (CallSetDataMask m) pg.
Proof.
  unfold handleClick.
  destruct (negb (emitCrossFilters p) || negb (setDataMask p)); [left; reflexivity|].
  destruct (truthy (iso_of feature)); [|left; reflexivity].
  right. eexists. reflexivity.
Qed.








(** ** Fill colour *)

(** Every path element leaves [drawMap] filled by [colorFn]. *)
Lemma drawMap_fill `{Ext : External} (p : Props) (mapData : MapData) (v : Svg)
    (i : nat) (r : Region) :
  regions (drawMap p mapData v) !! i = Some r ->
  fill r = colorFn p (datum r).
Proof.
  unfold drawMap. rewrite highlight_selection. simpl.
  rewrite !list_lookup_fmap. intros H.
  destruct (join p (regions v) (features mapData) !! i) as [r0|]; [|discriminate].
  simpl in H. injection H as <-. reflexivity.
Qed.

(** The element left by the pointer is filled by [colorFn] again. *)
Lemma mouseout_fill `{Ext : External} (p : Props) (v : Svg) (i : nat) (r : Region) :
  regions v !! i = Some r ->
  regions (mouseout p i v) !! i = Some (set_fill (colorFn p (datum r)) r).
Proof.
  intros Hi. unfold mouseout. rewrite Hi. simpl.
  apply list_lookup_insert_eq. apply lookup_lt_Some in Hi. assumption.
Qed.

(** The guard at the head of [colorFn]. *)
Lemma colorFn_without_properties `{Ext : External} (p : Props) (feature : option Feature) :
  properties_of feature = None -> colorFn p feature = "none".
Proof. intros H. unfold colorFn. rewrite H. reflexivity. Qed.

(** C7, as the code has it.  For every feature that has a properties
    record, with or without an ISO code, whose [ISO] (as a property key) is
    an ordinary key, the fill colour given on rendering (of a map without
    [null] feature) and given back on mouse-out is the colour-map entry under
    the key of [properties.ISO] when that entry is a non-empty string, and
    [#FFFEFE] otherwise.  (A feature without a properties record is filled
    with [none].) *)
Theorem fill_colour_of_feature_with_properties `{Ext : External}
    (p : Props) (feature : option Feature) (props : Properties) :
  properties_of feature = Some props ->
  ordinary_key (property_key (ISO props)) ->
  let colour :=
    match colorMap p !! property_key (ISO props) with
    | Some c => if String.eqb c EmptyString then "#FFFEFE" else c
    | None => "#FFFEFE"
    end in
  colorFn p feature = colour /\
  (forall (mapData : MapData) (v : Svg) (i : nat) (r : Region),
     Forall is_Some (features mapData) ->
     regions (drawMap p mapData v) !! i = Some r ->
     datum r = feature ->
     fill r = colour) /\
  (forall (v : Svg) (i : nat) (r : Region),
     regions v !! i = Some r ->
     datum r = feature ->
     exists r' : Region,
       regions (mouseout p i v) !! i = Some r' /\
       datum r' = feature /\
       fill r' = colour).
Proof.
  intros Hprops _ colour.
  assert (colorFn p feature = colour) as Hfn.
  { unfold colorFn. rewrite Hprops. subst colour. unfold js_or, truthy, truthy_string.
    destruct (colorMap p !! property_key (ISO props)) as [c|]; [|reflexivity].
    destruct (String.eqb c EmptyString); reflexivity. }
  split; [exact Hfn|]. split.
  - intros mapData v i r _ Hi Hd. rewrite (drawMap_fill p mapData v i r Hi), Hd. exact Hfn.
  - intros v i r Hi Hd. eexists. split; [apply mouseout_fill; exact Hi|].
    simpl. rewrite Hd. split; [reflexivity | exact Hfn].
Qed.

Lemma fill_colour_of_feature_with_properties_witness :
  @colorFn Demo.external (Demo.props None) (Demo.region "FR-C" "Corse") = "#FFFEFE" /\
  (forall (mapData : MapData) (v : Svg) (i : nat) (r : Region),
     Forall is_Some (features mapData) ->
     regions (@drawMap Demo.external (Demo.props None) mapData v) !! i = Some r ->
     datum r = Demo.region "FR-C" "Corse" ->
     fill r = "#FFFEFE") /\
  (forall (v : Svg) (i : nat) (r : Region),
     regions v !! i = Some r ->
     datum r = Demo.region "FR-C" "Corse" ->
     exists r' : Region,
       regions (@mouseout Demo.external (Demo.props None) i v) !! i = Some r' /\
       datum r' = Demo.region "FR-C" "Corse" /\
       fill r' = "#FFFEFE").
Proof.
  apply (@fill_colour_of_feature_with_properties Demo.external (Demo.props None)
           (Demo.region "FR-C" "Corse")
           {| ISO := Some "FR-C"; NAME_1 := Some "Corse"; NAME_2 := None |}).
  - reflexivity.
  - apply ordinary_key_computed. reflexivity.
Defined.

(** C7 as stated fails for a feature without a properties record: the colour
    map has no entry for it, yet it is rendered, and restored on mouse-out,
    with [none] and not with [#FFFEFE]. *)
Lemma fill_without_properties_is_none :
  @colorMap Demo.external (Demo.props None) !! property_key (iso_of Demo.bare) = None /\
  datum <$> regions (Demo.drawn None) !! 2%nat = Some Demo.bare /\
  fill <$> regions (Demo.drawn None) !! 2%nat = Some "none" /\
  fill <$> regions (@mouseout Demo.external (Demo.props None) 2 (Demo.drawn None)) !! 2%nat
    = Some "none" /\
  "none" <> "#FFFEFE".
Proof.
  split; [vm_compute; reflexivity|]. split; [vm_compute; reflexivity|].
  split; [vm_compute; reflexivity|]. split; [vm_compute; reflexivity|]. discriminate.
Qed.

(** ** Load failure *)

(** [countryOptions.find(x => x[0] === country)] returns the first pair
    whose code is [country]. *)
Lemma find_first_option (options : list (string * string)) (c : string)
    (before after : list (string * string)) (name : string) :
  options = (before ++ (c, name) :: after)%list ->
  (forall x, x ∈ before -> x.1 <> c) ->
  List.find (fun x => String.eqb x.1 c) options = Some (c, name).
Proof.
  intros -> Hbefore. induction before as [|[c0 n0] before IH]; simpl.
  - rewrite String.eqb_refl. reflexivity.
  - destruct (String.eqb_spec c0 c) as [->|Hne].
    + exfalso. apply (Hbefore (c, n0)); [left | reflexivity].
    + apply IH. intros x Hx. apply Hbefore. right. assumption.
Qed.

Lemma find_no_option (options : list (string * string)) (c : string) :
  (forall x, x ∈ options -> x.1 <> c) ->
  List.find (fun x => String.eqb x.1 c) options = None.
Proof.
  intros Hnone. induction options as [|[c0 n0] options IH]; simpl; [reflexivity|].
  destruct (String.eqb_spec c0 c) as [->|Hne].
  - exfalso. apply (Hnone (c, n0)); [left | reflexivity].
  - apply IH. intros x Hx. apply Hnone. right. assumption.
Qed.

(** C8, as the code has it.  When the request fails, the callback replaces
    the content of the container with the alert panel and does nothing else:
    the page, and with it the trace of requests and callback invocations, is
    unchanged.  The panel is a [div] of class [alert alert-danger] whose text
    is [Could not load map data for] followed by a name.  The name is the
    display name of the first entry of [countryOptions] for the country code
    when that name is a non-empty string; it is the raw code when that name
    is empty and when [countryOptions] has no entry for the code. *)
Theorem load_failure_panel `{Ext : External} (p : Props) (pg : Page) (v : Svg) :
  let panel (name : string) :=
    Markup ("<div class=" +:+ String (Ascii.ascii_of_nat 34)
              ("alert alert-danger" +:+ String (Ascii.ascii_of_nat 34)
                 (">Could not load map data for " +:+ name +:+ "</div>"))) in
  (json_callback p JsonError pg v).1 = pg /\
  (forall (before after : list (string * string)) (name : string),
     countryOptions = (before ++ (country p, name) :: after)%list ->
     (forall x, x ∈ before -> x.1 <> country p) ->
     (name <> EmptyString -> (json_callback p JsonError pg v).2 = panel name) /\
     (name = EmptyString -> (json_callback p JsonError pg v).2 = panel (country p))) /\
  ((forall x, x ∈ countryOptions -> x.1 <> country p) ->
   (json_callback p JsonError pg v).2 = panel (country p)).
Proof.
  intros panel. split; [reflexivity|]. split.
  - intros before after name Hopts Hbefore. simpl.
    rewrite (find_first_option _ _ before after name Hopts Hbefore). simpl.
    unfold js_or, truthy, truthy_string.
    destruct (String.eqb_spec name EmptyString) as [->|Hne]; simpl.
    + split; [intros H; contradiction | intros _; reflexivity].
    + split; [intros _; reflexivity | intros H; contradiction].
  - intros Hnone. simpl. rewrite (find_no_option _ _ Hnone). reflexivity.
Qed.

(** C8 as stated fails when the table maps a code to an empty display name:
    a mapping exists for [atlantis], yet the panel names the country by its
    raw code. *)
Lemma load_failure_panel_empty_display_name :
  List.find (fun x : string * string => String.eqb x.1 "atlantis") [("atlantis", EmptyString)]
    = Some ("atlantis", EmptyString) /\
  (@json_callback
     {| getNumberFormatter := fun _ n => pretty (Qnum n);
        createLinearScale := fun _ _ _ => "#000000";
        getScale := fun _ _ _ => "#000000";
        darker := fun c => c;
        countries := fun _ => None;
        countryOptions := [("atlantis", EmptyString)];
        Number_toString := fun n => pretty (Qnum n) |}
     {| data := []; width := 800%Q; height := 400%Q; country := "atlantis";
        entity := "region"; linearColorScheme := None; numberFormat := None;
        colorScheme := None; sliceId := None;
        filterState := {| selectedValues := None |};
        emitCrossFilters := false; onContextMenu := false; setDataMask := false |}
     JsonError Demo.page Demo.blank).2
  = Markup ("<div class=" +:+ String (Ascii.ascii_of_nat 34)
              ("alert alert-danger" +:+ String (Ascii.ascii_of_nat 34)
                 ">Could not load map data for atlantis</div>")).
Proof. split; reflexivity. Qed.

(** ** Hover *)

(** C9.  On pointer-enter over a path element, the metric text becomes the
    formatted metric of the first row of [data], in input order, whose
    [country_id] is the [ISO] of the element's feature; rows after it with the
    same [country_id] play no part.  When no row has that [country_id], the
    metric text becomes the empty string. *)
Theorem mouseenter_metric_text `{Ext : External} (p : Props) (i : nat) (v : Svg) (this : Region) :
  regions v !! i = Some this ->
  (forall (before after : list Datum) (row : Datum),
     data p = (before ++ row :: after)%list ->
     (forall r, r ∈ before -> country_id r <> iso_of (datum this)) ->
     country_id row = iso_of (datum this) ->
     resultText (mouseenter p i v) = getNumberFormatter (numberFormat p) (metric row)) /\
  ((forall r, r ∈ data p -> country_id r <> iso_of (datum this)) ->
   resultText (mouseenter p i v) = EmptyString).
Proof.
  intros Hi. unfold mouseenter. rewrite Hi.
  set (matches := fun r : Datum => bool_decide (country_id r = iso_of (datum this))).
  assert (forall l : list Datum,
            (forall r, r ∈ l -> country_id r <> iso_of (datum this)) ->
            List.filter matches l = []) as Hnone.
  { induction l as [|d l IH]; intros Hl; simpl; [reflexivity|].
    unfold matches at 1. rewrite bool_decide_eq_false_2 by (apply Hl; left).
    apply IH. intros r Hr. apply Hl. right. assumption. }
  split.
  - intros before after row Hdata Hbefore Hrow.
    rewrite Hdata, List.filter_app, (Hnone before Hbefore). simpl.
    unfold matches at 1. rewrite bool_decide_eq_true_2 by assumption. reflexivity.
  - intros Hall. rewrite (Hnone (data p) Hall). reflexivity.
Qed.

Lemma mouseenter_metric_text_witness :
  (forall (before after : list Datum) (row : Datum),
     Demo.rows = (before ++ row :: after)%list ->
     (forall r, r ∈ before -> country_id r <> Some "FR-A") ->
     country_id row = Some "FR-A" ->
     resultText (@mouseenter Demo.external (Demo.props None) 0 (Demo.drawn None))
       = pretty (Qnum (metric row))) /\
  ((forall r, r ∈ Demo.rows -> country_id r <> Some "FR-A") ->
   resultText (@mouseenter Demo.external (Demo.props None) 0 (Demo.drawn None)) = EmptyString).
Proof.
  apply (@mouseenter_metric_text Demo.external (Demo.props None) 0 (Demo.drawn None)
           {| datum := Demo.region "FR-A" "Alsace"; fill := "rgb(10,0,0)";
              fill_opacity := StyleNum 1%Q; stroke := StyleNull;
              stroke_width := StyleStr "0.5px" |}).
  reflexivity.
Defined.

(** ** Context menu without a region code *)

(** C10.  With a context-menu callback supplied, a right click on a feature
    that has no region code (no feature, no properties record, no [ISO], or
    an empty [ISO]) calls [preventDefault] on the pointer event and returns
    without calling the callback: [preventDefault] is the only effect. *)
Theorem contextmenu_suppressed_without_callback_call
    (p : Props) (e : PointerEvent) (feature : option Feature) (pg : Page) :
  onContextMenu p = true ->
  truthy (iso_of feature) = None ->
  handleContextMenu p (Some e) feature pg = Returned (emit PreventDefault pg) /\
  trace (emit PreventDefault pg) = (trace pg ++ [PreventDefault])%list.
Proof.
  intros Hmenu Hiso. unfold handleContextMenu. rewrite Hmenu, Hiso.
  split; reflexivity.
Qed.

Lemma contextmenu_suppressed_without_callback_call_witness :
  handleContextMenu (Demo.props None) (Some (Demo.pointer false)) Demo.bare Demo.page
    = Returned (emit PreventDefault Demo.page) /\
  trace (emit PreventDefault Demo.page) = (trace Demo.page ++ [PreventDefault])%list.
Proof.
  apply (contextmenu_suppressed_without_callback_call
           (Demo.props None) (Demo.pointer false) Demo.bare Demo.page);
    reflexivity.
Defined.

(** ** The model on concrete inputs *)

Example click_sole_selection_clears :
  trace (handleClick (Demo.props (Some ["FR-A"])) (Some (Demo.pointer false))
           (Demo.region "FR-A" "Alsace") Demo.page Demo.blank).1
  = [CallSetDataMask
       {| dm_extraFormData := {| filters := [] |};
          dm_filterState := {| fs_value := None; fs_selectedValues := None |} |}].
Proof. reflexivity. Qed.

Example shift_click_adds :
  trace (handleClick (Demo.props (Some ["FR-B"])) (Some (Demo.pointer true))
           (Demo.region "FR-A" "Alsace") Demo.page Demo.blank).1
  = [CallSetDataMask
       {| dm_extraFormData :=
            {| filters := [ {| col := "region"; op := "IN";
                               val := ValList ["FR-B"; "FR-A"]; formattedVal := None |} ] |};
          dm_filterState :=
            {| fs_value := Some ["FR-B"; "FR-A"];
               fs_selectedValues := Some ["FR-B"; "FR-A"] |} |}].
Proof. reflexivity. Qed.

Example click_without_region_code_is_silent :
  handleClick (Demo.props None) (Some (Demo.pointer false)) Demo.bare Demo.page Demo.blank
  = (Demo.page, Demo.blank).
Proof. reflexivity. Qed.

Example zoom_out_of_bounds_is_clamped :
  (@on_zoom Demo.external (Demo.props None)
     {| ev_translate := (50%Q, (-900)%Q); ev_scale := 2%Q |} Demo.page Demo.blank).2
  = set_transform (Some {| scale := 2%Q; translate := (0%Q, (400 - 400 * 2)%Q) |}) Demo.blank.
Proof. reflexivity. Qed.

Example hover_shows_first_matching_row :
  let v := @mouseenter Demo.external (Demo.props None) 0 (Demo.drawn None) in
  bigText v = "Alsace" /\ resultText v = "1".
Proof. split; reflexivity. Qed.

Example failure_names_country :
  (@json_callback Demo.external (Demo.props None) JsonError Demo.page Demo.blank).2
  = Markup (alert "France").
Proof. reflexivity. Qed.

(** ** Further properties of the click handler *)

Lemma emit_trace (e : Effect) (pg : Page) :
  trace (emit e pg) = (trace pg ++ [e])%list.
Proof. reflexivity. Qed.

Lemma emit_neq (e : Effect) (pg : Page) : emit e pg <> pg.
Proof.
  intros H. apply (f_equal trace) in H. rewrite emit_trace in H.
  apply (f_equal length) in H. rewrite length_app in H. simpl in H. lia.
Qed.

Lemma emit_inj (e e' : Effect) (pg : Page) : emit e pg = emit e' pg -> e = e'.
Proof.
  intros H. apply (f_equal trace) in H. rewrite !emit_trace in H.
  apply app_inj_tail in H as [_ H]. exact H.
Qed.

(** The selection a click works out, before it is wrapped into the payload. *)
Lemma handleClick_selection
    (p : Props) (event : option PointerEvent) (feature : option Feature)
    (r : string) (pg : Page) (v : Svg) :
  emitCrossFilters p = true ->
  setDataMask p = true ->
  truthy (iso_of feature) = Some r ->
  let cur := JsSet.from_array (default [] (selectedValues (filterState p))) in
  let newSelection :=
    if shift_held event then
      if JsSet.has cur r then JsSet.delete cur r else JsSet.add cur r
    else if (JsSet.size cur =? 1)%nat && JsSet.has cur r then [] else [r] in
  NoDup newSelection /\
  handleClick p event feature pg v =
    (emit (CallSetDataMask
             {| dm_extraFormData := {| filters := in_filters (entity p) newSelection |};
                dm_filterState :=
                  {| fs_value := or_null newSelection;
                     fs_selectedValues := or_null newSelection |} |}) pg,
     highlightSelectedRegion p v).
Proof.
  intros Hemit Hcb Ht cur newSelection. split.
  - subst newSelection. pose proof (JsSetFacts.NoDup_from_array
      (default [] (selectedValues (filterState p)))) as Hnd. fold cur in Hnd.
    destruct (shift_held event).
    + destruct (JsSet.has cur r);
        [apply JsSetFacts.NoDup_delete | apply JsSetFacts.NoDup_add]; exact Hnd.
    + destruct ((JsSet.size cur =? 1)%nat && JsSet.has cur r);
        [constructor | apply NoDup_singleton].
  - unfold handleClick. rewrite Hemit, Hcb, Ht. simpl negb. simpl orb. cbv iota.
    fold cur. subst newSelection.
    destruct (shift_held event); [reflexivity|].
    destruct ((JsSet.size cur =? 1)%nat && JsSet.has cur r); reflexivity.
Qed.

(** X1.  A click calls [setDataMask] exactly when cross-filtering is
    enabled, a mutation callback is supplied and the feature carries a truthy
    [ISO].  In every other case the handler returns before doing anything:
    no effect, and the tree is not even re-highlighted. *)
Theorem handleClick_emits_iff
    (p : Props) (event : option PointerEvent) (feature : option Feature)
    (pg : Page) (v : Svg) :
  ((emitCrossFilters p = false \/ setDataMask p = false \/ truthy (iso_of feature) = None) ->
   handleClick p event feature pg v = (pg, v)) /\
  ((exists m : DataMask,
      trace (handleClick p event feature pg v).1 = (trace pg ++ [CallSetDataMask m])%list)
   <-> (emitCrossFilters p = true /\ setDataMask p = true /\
        exists r, truthy (iso_of feature) = Some r)).
Proof.
  assert ((emitCrossFilters p = false \/ setDataMask p = false \/
           truthy (iso_of feature) = None) ->
          handleClick p event feature pg v = (pg, v)) as Hquiet.
  { unfold handleClick. intros [H | [H | H]].
    - rewrite H. reflexivity.
    - rewrite H, orb_true_r. reflexivity.
    - rewrite H. destruct (negb (emitCrossFilters p) || negb (setDataMask p)); reflexivity. }
  split; [exact Hquiet|]. split.
  - intros [m Hm].
    destruct (emitCrossFilters p) eqn:He, (setDataMask p) eqn:Hc,
      (truthy (iso_of feature)) as [r|] eqn:Ht;
      try (split; [reflexivity | split; [reflexivity | exists r; reflexivity]]);
      exfalso; rewrite Hquiet in Hm by auto; simpl in Hm;
      apply (f_equal length) in Hm; rewrite length_app in Hm; simpl in Hm; lia.
  - intros (He & Hc & r & Ht).
    destruct (handleClick_selection p event feature r pg v He Hc Ht) as [_ Heq].
    rewrite Heq. eexists. reflexivity.
Qed.

(** X2.  Whatever a click passes to [setDataMask] is well formed: [value]
    and [selectedValues] are the same; an empty selection is [null] together
    with an empty filter list, never an [IN] clause over nothing; a non-empty
    selection has no repeated code and comes with exactly one clause,
    [entity IN selection]. *)
Theorem handleClick_payload_well_formed
    (p : Props) (event : option PointerEvent) (feature : option Feature)
    (pg : Page) (v : Svg) (m : DataMask) :
  (handleClick p event feature pg v).1 = emit (CallSetDataMask m) pg ->
  fs_value (dm_filterState m) = fs_selectedValues (dm_filterState m) /\
  (fs_selectedValues (dm_filterState m) = None ->
   filters (dm_extraFormData m) = []) /\
  (forall sel : list string,
     fs_selectedValues (dm_filterState m) = Some sel ->
     sel <> [] /\ NoDup sel /\
     filters (dm_extraFormData m) =
       [ {| col := entity p; op := "IN"; val := ValList sel; formattedVal := None |} ]).
Proof.
  intros Hm.
  destruct (emitCrossFilters p) eqn:He; [|
    exfalso; apply (emit_neq (CallSetDataMask m) pg); rewrite <- Hm;
    unfold handleClick; rewrite He; reflexivity].
  destruct (setDataMask p) eqn:Hc; [|
    exfalso; apply (emit_neq (CallSetDataMask m) pg); rewrite <- Hm;
    unfold handleClick; rewrite He, Hc; reflexivity].
  destruct (truthy (iso_of feature)) as [r|] eqn:Ht; [|
    exfalso; apply (emit_neq (CallSetDataMask m) pg); rewrite <- Hm;
    unfold handleClick; rewrite He, Hc, Ht; reflexivity].
  destruct (handleClick_selection p event feature r pg v He Hc Ht) as [Hnd Heq].
  cbv zeta in Hnd, Heq. rewrite Heq in Hm. simpl in Hm.
  apply emit_inj in Hm. injection Hm as <-. simpl.
  match type of Hnd with NoDup ?s => destruct s as [|x sel'] end; simpl.
  - split; [reflexivity|]. split; [reflexivity|]. intros sel Hsel. discriminate.
  - split; [reflexivity|]. split; [discriminate|]. intros sel Hsel.
    injection Hsel as <-. split; [discriminate|]. split; [exact Hnd | reflexivity].
Qed.

Lemma handleClick_payload_well_formed_witness :
  fs_value (dm_filterState
    {| dm_extraFormData := {| filters := in_filters "region" ["FR-A"] |};
       dm_filterState := {| fs_value := Some ["FR-A"]; fs_selectedValues := Some ["FR-A"] |} |})
  = Some ["FR-A"] /\
  (Some ["FR-A"] = None -> in_filters "region" ["FR-A"] = []) /\
  (forall sel : list string,
     Some ["FR-A"] = Some sel ->
     sel <> [] /\ NoDup sel /\
     in_filters "region" ["FR-A"] =
       [ {| col := "region"; op := "IN"; val := ValList sel; formattedVal := None |} ]).
Proof.
  apply (handleClick_payload_well_formed (Demo.props (Some ["FR-B"]))
           (Some (Demo.pointer false)) (Demo.region "FR-A" "Alsace") Demo.page Demo.blank
           {| dm_extraFormData := {| filters := in_filters "region" ["FR-A"] |};
              dm_filterState :=
                {| fs_value := Some ["FR-A"]; fs_selectedValues := Some ["FR-A"] |} |}).
  reflexivity.
Defined.

Lemma default_or_null (l : list string) : default [] (or_null l) = l.
Proof. destruct l; reflexivity. Qed.

(** Membership after the flip that a shift-click performs. *)
Lemma toggle_members (cur : JsSet.t) (r x : string) :
  x ∈ (if JsSet.has cur r then JsSet.delete cur r else JsSet.add cur r)
  <-> (x ∈ cur /\ x <> r) \/ (x = r /\ r ∉ cur).
Proof.
  destruct (JsSet.has cur r) eqn:Hhas.
  - apply JsSetFacts.has_elem_of in Hhas.
    rewrite JsSetFacts.elem_of_delete. tauto.
  - assert (r ∉ cur) as Hnot.
    { rewrite <- JsSetFacts.has_elem_of, Hhas. discriminate. }
    rewrite JsSetFacts.elem_of_add.
    split; [intros [Hx| ->]; [left; split; [assumption|congruence] | tauto] | tauto].
Qed.

(** [new Set(xs)] of an array without repetition lists [xs] in its order. *)
Lemma from_array_NoDup (xs : list string) : NoDup xs -> JsSet.from_array xs = xs.
Proof.
  unfold JsSet.from_array.
  assert (forall acc, NoDup (acc ++ xs) -> fold_left JsSet.add xs acc = (acc ++ xs)%list) as H.
  { induction xs as [|x xs IH]; intros acc Hnd; simpl.
    - rewrite app_nil_r. reflexivity.
    - assert (JsSet.add acc x = (acc ++ [x])%list) as ->.
      { unfold JsSet.add. destruct (JsSet.has acc x) eqn:Hhas; [|reflexivity].
        apply JsSetFacts.has_elem_of in Hhas. apply NoDup_app in Hnd as (_ & Hdis & _).
        exfalso. apply (Hdis x Hhas). left. }
      rewrite IH; rewrite <- app_assoc; [reflexivity | exact Hnd]. }
  intros Hnd. apply (H []). exact Hnd.
Qed.

(** X3.  Shift-clicking the same region twice, with the host feeding the
    first emitted selection back as the new [filterState], gives back the
    selection one started from (as a set): the shift toggle undoes itself. *)
Theorem shift_click_twice_restores_selection
    (p p2 : Props) (e e2 : PointerEvent) (feature : option Feature) (r : string)
    (pg pg2 : Page) (v v2 : Svg) (m1 : DataMask) :
  emitCrossFilters p = true -> setDataMask p = true ->
  emitCrossFilters p2 = true -> setDataMask p2 = true ->
  iso_of feature = Some r -> r <> EmptyString ->
  shiftKey e = true -> shiftKey e2 = true ->
  (handleClick p (Some e) feature pg v).1 = emit (CallSetDataMask m1) pg ->
  selectedValues (filterState p2) = fs_selectedValues (dm_filterState m1) ->
  exists m2 : DataMask,
    (handleClick p2 (Some e2) feature pg2 v2).1 = emit (CallSetDataMask m2) pg2 /\
    forall x, x ∈ default [] (fs_selectedValues (dm_filterState m2))
              <-> x ∈ default [] (selectedValues (filterState p)).
Proof.
  intros He Hc He2 Hc2 Hiso Hr Hs Hs2 Hm1 Hfeed.
  assert (truthy (iso_of feature) = Some r) as Ht by (apply truthy_Some; auto).
  destruct (handleClick_selection p (Some e) feature r pg v He Hc Ht) as [_ H1].
  destruct (handleClick_selection p2 (Some e2) feature r pg2 v2 He2 Hc2 Ht) as [_ H2].
  cbv zeta in H1, H2. simpl shift_held in H1, H2. rewrite Hs in H1. rewrite Hs2 in H2.
  rewrite H1 in Hm1. simpl in Hm1. apply emit_inj in Hm1. injection Hm1 as <-.
  simpl in Hfeed. rewrite Hfeed, default_or_null in H2.
  rewrite H2. eexists. split; [reflexivity|]. simpl. intros x.
  rewrite default_or_null, !toggle_members, !JsSetFacts.elem_of_from_array,
    !toggle_members, !JsSetFacts.elem_of_from_array.
  set (S := default [] (selectedValues (filterState p))).
  destruct (decide (r ∈ S)); destruct (decide (x = r)); subst; tauto.
Qed.

Lemma shift_click_twice_restores_selection_witness :
  exists m2 : DataMask,
    (handleClick (Demo.props (Some ["FR-B"; "FR-A"])) (Some (Demo.pointer true))
       (Demo.region "FR-A" "Alsace") Demo.page Demo.blank).1
      = emit (CallSetDataMask m2) Demo.page /\
    forall x, x ∈ default [] (fs_selectedValues (dm_filterState m2)) <-> x ∈ ["FR-B"].
Proof.
  apply (shift_click_twice_restores_selection
           (Demo.props (Some ["FR-B"])) (Demo.props (Some ["FR-B"; "FR-A"]))
           (Demo.pointer true) (Demo.pointer true) (Demo.region "FR-A" "Alsace") "FR-A"
           Demo.page Demo.page Demo.blank Demo.blank
           {| dm_extraFormData := {| filters := in_filters "region" ["FR-B"; "FR-A"] |};
              dm_filterState :=
                {| fs_value := Some ["FR-B"; "FR-A"];
                   fs_selectedValues := Some ["FR-B"; "FR-A"] |} |});
    first [reflexivity | discriminate].
Defined.

(** X4.  A shift-click keeps the order of the current selection: on a
    selection without repetition, a code that is not selected is appended at
    the end, and a selected code is taken out with the others staying in
    place. *)
Theorem shift_click_keeps_order
    (p : Props) (e : PointerEvent) (feature : option Feature) (r : string)
    (pg : Page) (v : Svg) :
  emitCrossFilters p = true -> setDataMask p = true ->
  iso_of feature = Some r -> r <> EmptyString ->
  shiftKey e = true ->
  NoDup (default [] (selectedValues (filterState p))) ->
  let S := default [] (selectedValues (filterState p)) in
  let newSelection :=
    if bool_decide (r ∈ S) then List.filter (fun y => negb (String.eqb y r)) S
    else (S ++ [r])%list in
  trace (handleClick p (Some e) feature pg v).1 =
    (trace pg ++
     [CallSetDataMask
        {| dm_extraFormData := {| filters := in_filters (entity p) newSelection |};
           dm_filterState :=
             {| fs_value := or_null newSelection;
                fs_selectedValues := or_null newSelection |} |}])%list.
Proof.
  intros He Hc Hiso Hr Hs Hnd S newSelection.
  assert (truthy (iso_of feature) = Some r) as Ht by (apply truthy_Some; auto).
  destruct (handleClick_selection p (Some e) feature r pg v He Hc Ht) as [_ H1].
  cbv zeta in H1. simpl shift_held in H1. rewrite Hs in H1. fold S in H1.
  rewrite (from_array_NoDup S Hnd) in H1. rewrite H1. simpl. subst newSelection.
  destruct (bool_decide_reflect (r ∈ S)) as [Hin|Hnot].
  - apply JsSetFacts.has_elem_of in Hin. rewrite Hin. reflexivity.
  - assert (JsSet.has S r = false) as Hhas.
    { destruct (JsSet.has S r) eqn:E; [|reflexivity].
      apply JsSetFacts.has_elem_of in E. contradiction. }
    rewrite Hhas. unfold JsSet.add. rewrite Hhas. reflexivity.
Qed.

Lemma shift_click_keeps_order_witness :
  trace (handleClick (Demo.props (Some ["FR-C"; "FR-B"])) (Some (Demo.pointer true))
           (Demo.region "FR-A" "Alsace") Demo.page Demo.blank).1 =
    (trace Demo.page ++
     [CallSetDataMask
        {| dm_extraFormData :=
             {| filters := in_filters "region" ["FR-C"; "FR-B"; "FR-A"] |};
           dm_filterState :=
             {| fs_value := or_null ["FR-C"; "FR-B"; "FR-A"];
                fs_selectedValues := or_null ["FR-C"; "FR-B"; "FR-A"] |} |}])%list.
Proof.
  apply (shift_click_keeps_order (Demo.props (Some ["FR-C"; "FR-B"])) (Demo.pointer true)
           (Demo.region "FR-A" "Alsace") "FR-A" Demo.page Demo.blank);
    try first [reflexivity | discriminate].
  apply NoDup_cons. split; [|apply NoDup_singleton].
  intros H. apply list_elem_of_singleton in H. discriminate.
Defined.

(** ** Drawing *)

Lemma join_datum `{Ext : External} (p : Props) (existing : list Region)
    (fs : list (option Feature)) :
  datum <$> join p existing fs = fs.
Proof.
  revert existing. induction fs as [|f fs IH]; intros existing; [reflexivity|].
  destruct existing as [|r rs]; simpl; rewrite IH; reflexivity.
Qed.

Lemma highlight_idempotent (S : list string) (r : Region) :
  highlight S (highlight S r) = highlight S r.
Proof. reflexivity. Qed.

Lemma highlightSelectedRegion_idempotent (p : Props) (v : Svg) :
  highlightSelectedRegion p (highlightSelectedRegion p v) = highlightSelectedRegion p v.
Proof.
  rewrite !highlight_selection. unfold set_regions. simpl. f_equal.
  rewrite <- list_fmap_compose. apply list_fmap_ext. intros i r _. reflexivity.
Qed.

(** X5.  For a map without [null] feature, [drawMap] paints one path
    element per feature, in the features' order, whatever elements the map
    layer held before: elements beyond the features are removed and missing
    ones are appended.  The two text elements and the content group's
    transform are left as they were. *)
Theorem drawMap_one_region_per_feature `{Ext : External}
    (p : Props) (mapData : MapData) (v : Svg) :
  Forall is_Some (features mapData) ->
  datum <$> regions (drawMap p mapData v) = features mapData /\
  length (regions (drawMap p mapData v)) = length (features mapData) /\
  bigText (drawMap p mapData v) = bigText v /\
  resultText (drawMap p mapData v) = resultText v /\
  g_transform (drawMap p mapData v) = g_transform v.
Proof.
  intros _.
  assert (datum <$> regions (drawMap p mapData v) = features mapData) as Hd.
  { unfold drawMap. rewrite highlight_selection. simpl.
    rewrite <- !list_fmap_compose.
    etransitivity; [|apply (join_datum p (regions v))].
    apply list_fmap_ext. intros i r _. reflexivity. }
  split; [exact Hd|]. split.
  - apply (f_equal length) in Hd. rewrite length_fmap in Hd. exact Hd.
  - unfold drawMap. rewrite highlight_selection. repeat split.
Qed.

Lemma drawMap_one_region_per_feature_witness :
  datum <$> regions (@drawMap Demo.external (Demo.props None) Demo.france Demo.blank)
    = features Demo.france /\
  length (regions (@drawMap Demo.external (Demo.props None) Demo.france Demo.blank))
    = length (features Demo.france) /\
  bigText (@drawMap Demo.external (Demo.props None) Demo.france Demo.blank)
    = bigText Demo.blank /\
  resultText (@drawMap Demo.external (Demo.props None) Demo.france Demo.blank)
    = resultText Demo.blank /\
  g_transform (@drawMap Demo.external (Demo.props None) Demo.france Demo.blank)
    = g_transform Demo.blank.
Proof.
  apply (@drawMap_one_region_per_feature Demo.external (Demo.props None) Demo.france
           Demo.blank).
  repeat constructor; eexists; reflexivity.
Defined.

(** X6.  The re-highlighting at the end of a click changes nothing on a
    chart as [drawMap] left it: the handler closes over the selection of the
    invocation that drew the chart, so whatever the click emits, the tree
    looks the same until the host invokes the render function again. *)
Theorem handleClick_keeps_drawn_tree `{Ext : External}
    (p : Props) (event : option PointerEvent) (feature : option Feature)
    (pg : Page) (mapData : MapData) (v : Svg) :
  (handleClick p event feature pg (drawMap p mapData v)).2 = drawMap p mapData v.
Proof.
  unfold handleClick.
  destruct (negb (emitCrossFilters p) || negb (setDataMask p)); [reflexivity|].
  destruct (truthy (iso_of feature)); [|reflexivity].
  cbn [snd]. unfold drawMap. apply highlightSelectedRegion_idempotent.
Qed.

(** ** The colour map *)

Section ColourMap.
Context `{Ext : External}.
Variable p : Props.

(** The colour a row asks for: categorical when a colour scheme is given,
    linear over the metric otherwise. *)
Let colour_of (d : Datum) : string :=
  match truthy (colorScheme p) with
  | Some _ => colorScale p (country_id d) (sliceId p)
  | None => linearColorScale p (metric d)
  end.

Let fill_in (m : gmap string string) (d : Datum) : gmap string string :=
  <[ property_key (country_id d) := colour_of d ]> m.

Lemma fold_fill_in_other (k : string) (rows : list Datum) (m : gmap string string) :
  (forall d, d ∈ rows -> property_key (country_id d) <> k) ->
  fold_left fill_in rows m !! k = m !! k.
Proof.
  revert m. induction rows as [|d rows IH]; intros m Hrows; simpl; [reflexivity|].
  rewrite IH by (intros d' Hd'; apply Hrows; right; exact Hd').
  unfold fill_in. apply lookup_insert_ne. apply Hrows. left.
Qed.

Lemma fold_fill_in_last (k : string) (before after : list Datum) (d : Datum)
    (m : gmap string string) :
  property_key (country_id d) = k ->
  (forall d', d' ∈ after -> property_key (country_id d') <> k) ->
  fold_left fill_in (before ++ d :: after) m !! k = Some (colour_of d).
Proof.
  intros Hk Hafter. rewrite fold_left_app. simpl.
  rewrite fold_fill_in_other by exact Hafter.
  unfold fill_in at 1. rewrite Hk. apply lookup_insert_eq.
Qed.

Lemma fold_fill_in_some (k : string) (rows : list Datum) (m : gmap string string) :
  is_Some (m !! k) \/ (exists d, d ∈ rows /\ property_key (country_id d) = k) ->
  is_Some (fold_left fill_in rows m !! k).
Proof.
  revert m. induction rows as [|d rows IH]; intros m H; simpl.
  - destruct H as [H | (d & Hd & _)]; [exact H | inversion Hd].
  - apply IH. unfold fill_in.
    destruct (decide (property_key (country_id d) = k)) as [Heq|Hne].
    + left. rewrite Heq, lookup_insert_eq. eauto.
    + rewrite lookup_insert_ne by exact Hne.
      destruct H as [H | (d' & Hd' & Hk)]; [left; exact H|].
      apply elem_of_cons in Hd' as [-> | Hd']; [contradiction|].
      right. exists d'. split; assumption.
Qed.

(** X7.  For an ordinary key: the colour map has an entry for the key
    exactly when some row has that [country_id], and when several rows share
    a [country_id] the entry is the colour of the last of them in input
    order: later rows overwrite earlier ones (the tooltip, in contrast, reads
    the first). *)
Theorem colorMap_last_row_wins (k : string) :
  ordinary_key k ->
  (colorMap p !! k = None <->
   forall d, d ∈ data p -> property_key (country_id d) <> k) /\
  (forall (before after : list Datum) (d : Datum),
     data p = (before ++ d :: after)%list ->
     property_key (country_id d) = k ->
     (forall d', d' ∈ after -> property_key (country_id d') <> k) ->
     colorMap p !! k =
       Some (match truthy (colorScheme p) with
             | Some _ => colorScale p (country_id d) (sliceId p)
             | None => linearColorScale p (metric d)
             end)).
Proof.
  intros _. change (colorMap p) with (fold_left fill_in (data p) ∅). split; [split|].
  - intros Hnone d Hd Hk.
    assert (is_Some (fold_left fill_in (data p) ∅ !! k)) as [c Hc].
    { apply fold_fill_in_some. right. exists d. split; assumption. }
    congruence.
  - intros Hrows. rewrite fold_fill_in_other by exact Hrows. apply lookup_empty.
  - intros before after d Hdata Hk Hafter. rewrite Hdata.
    apply fold_fill_in_last; assumption.
Qed.

End ColourMap.

Lemma colorMap_last_row_wins_witness :
  (@colorMap Demo.external (Demo.props None) !! "FR-A" = None <->
   forall d, d ∈ Demo.rows -> property_key (country_id d) <> "FR-A") /\
  (forall (before after : list Datum) (d : Datum),
     Demo.rows = (before ++ d :: after)%list ->
     property_key (country_id d) = "FR-A" ->
     (forall d', d' ∈ after -> property_key (country_id d') <> "FR-A") ->
     @colorMap Demo.external (Demo.props None) !! "FR-A" =
       Some ("rgb(" +:+ pretty (Qnum (metric d)) +:+ ",0,0)")).
Proof.
  apply (@colorMap_last_row_wins Demo.external (Demo.props None) "FR-A").
  apply ordinary_key_computed. reflexivity.
Defined.

(** ** Hover *)



(** X8.  Hovering works on the hovered path element and the two text
    elements only: after [mouseenter], and after [mouseout], every other
    path element is as before, the hovered one keeps its feature, the number
    of elements and the content group's transform are unchanged; and an
    index that names no element changes nothing at all. *)
Theorem hover_touches_one_region `{Ext : External} (p : Props) (i : nat) (v : Svg) :
  (forall j, j <> i ->
     regions (mouseenter p i v) !! j = regions v !! j /\
     regions (mouseout p i v) !! j = regions v !! j) /\
  datum <$> regions (mouseenter p i v) = datum <$> regions v /\
  datum <$> regions (mouseout p i v) = datum <$> regions v /\
  g_transform (mouseenter p i v) = g_transform v /\
  g_transform (mouseout p i v) = g_transform v /\
  (regions v !! i = None -> mouseenter p i v = v /\ mouseout p i v = v).
Proof.
  unfold mouseenter, mouseout, updateMetrics.
  destruct (regions v !! i) as [this|] eqn:Hi; [|repeat split; reflexivity].
  match goal with |- context [List.filter ?f ?l] => destruct (List.filter f l) end; simpl.
  all: repeat split; try discriminate;
    try (intros; apply list_lookup_insert_ne; congruence);
    rewrite list_fmap_insert; apply list_insert_id;
    rewrite list_lookup_fmap, Hi; reflexivity.
Qed.







(** ** Context menu *)

(** X11.  With a context-menu callback supplied, a right click on a feature
    with region code [r] has exactly two effects, in this order:
    [preventDefault], then one call of the callback at the pointer's client
    coordinates.  The payload holds the drill-to-detail filter
    [entity == r] with [r] as formatted value, the drill-by filter
    [entity == r] grouped under the literal field name [entity], and a
    cross-filter that says whether [r] is currently selected and carries no
    selection if it is and [[r]] if it is not.  None of this depends on
    whether cross-filtering is enabled. *)
Theorem handleContextMenu_payload
    (p : Props) (e : PointerEvent) (feature : option Feature) (r : string) (pg : Page) :
  onContextMenu p = true ->
  iso_of feature = Some r ->
  r <> EmptyString ->
  let S := default [] (selectedValues (filterState p)) in
  let values := if bool_decide (r ∈ S) then [] else [r] in
  exists pg' : Page,
    handleContextMenu p (Some e) feature pg = Returned pg' /\
    maps pg' = maps pg /\ zoomStates pg' = zoomStates pg /\
    trace pg' =
      (trace pg ++
       [ PreventDefault;
         CallOnContextMenu (clientX e) (clientY e)
           {| drillToDetail :=
                [ {| col := entity p; op := "=="; val := ValStr r; formattedVal := Some r |} ];
              crossFilter :=
                Some {| dataMask :=
                          {| dm_extraFormData := {| filters := in_filters (entity p) values |};
                             dm_filterState :=
                               {| fs_value := or_null values;
                                  fs_selectedValues := or_null values |} |};
                        isCurrentValueSelected := bool_decide (r ∈ S) |};
              drillBy :=
                {| db_filters :=
                     [ {| col := entity p; op := "=="; val := ValStr r;
                          formattedVal := None |} ];
                   groupbyFieldName := "entity" |} |} ])%list.
Proof.
  intros Hmenu Hiso Hr S values.
  assert (truthy (iso_of feature) = Some r) as Ht by (apply truthy_Some; auto).
  unfold handleContextMenu, getCrossFilterDataMask. rewrite Hmenu, Ht. simpl negb. cbv iota.
  fold S.
  assert (includes S (Some r) = bool_decide (r ∈ S)) as ->.
  { destruct (bool_decide_reflect (r ∈ S)) as [Hin|Hnot].
    - apply includes_Some. exact Hin.
    - apply includes_Some_false. exact Hnot. }
  eexists. split; [reflexivity|]. split; [reflexivity|]. split; [reflexivity|].
  simpl. rewrite <- app_assoc. reflexivity.
Qed.

Lemma handleContextMenu_payload_witness :
  exists pg' : Page,
    handleContextMenu (Demo.props (Some ["FR-A"; "FR-B"])) (Some (Demo.pointer false))
      (Demo.region "FR-A" "Alsace") Demo.page = Returned pg' /\
    maps pg' = maps Demo.page /\ zoomStates pg' = zoomStates Demo.page /\
    trace pg' =
      (trace Demo.page ++
       [ PreventDefault;
         CallOnContextMenu 10%Q 20%Q
           {| drillToDetail :=
                [ {| col := "region"; op := "=="; val := ValStr "FR-A";
                     formattedVal := Some "FR-A" |} ];
              crossFilter :=
                Some {| dataMask :=
                          {| dm_extraFormData := {| filters := [] |};
                             dm_filterState :=
                               {| fs_value := None; fs_selectedValues := None |} |};
                        isCurrentValueSelected := true |};
              drillBy :=
                {| db_filters :=
                     [ {| col := "region"; op := "=="; val := ValStr "FR-A";
                          formattedVal := None |} ];
                   groupbyFieldName := "entity" |} |} ])%list.
Proof.
  apply (handleContextMenu_payload (Demo.props (Some ["FR-A"; "FR-B"])) (Demo.pointer false)
           (Demo.region "FR-A" "Alsace") "FR-A" Demo.page);
    [reflexivity | reflexivity | discriminate].
Defined.

(** X12.  Without a context-menu callback a right click does nothing at
    all: the native menu is not suppressed and the handler cannot fail,
    whatever the feature and even without a pointer event.  With a pointer
    event the handler always returns normally.  Only the combination of a
    callback, a region code and no pointer event makes it raise: the
    coordinates are read without the guard that [preventDefault] has. *)
Theorem handleContextMenu_quiet_or_returns
    (p : Props) (feature : option Feature) (pg : Page) :
  (onContextMenu p = false ->
   forall event, handleContextMenu p event feature pg = Returned pg) /\
  (forall e : PointerEvent,
     exists pg', handleContextMenu p (Some e) feature pg = Returned pg') /\
  (onContextMenu p = true ->
   (exists r, truthy (iso_of feature) = Some r) ->
   handleContextMenu p None feature pg = Threw pg).
Proof.
  unfold handleContextMenu. split; [|split].
  - intros Hno event. rewrite Hno. destruct (truthy (iso_of feature)); reflexivity.
  - intros e. destruct (onContextMenu p), (truthy (iso_of feature));
      simpl; eexists; reflexivity.
  - intros Hmenu [r Hr]. rewrite Hmenu, Hr. reflexivity.
Qed.

(** ** Zoom and pan *)

(** [Math.min] and [Math.max] return one of their arguments. *)
Lemma Qmin_left (x y : Q) : (x <= y)%Q -> Qmin x y = x.
Proof.
  intros Hle. unfold Qmin, GenericMinMax.gmin.
  destruct (x ?= y)%Q eqn:E; try reflexivity.
  exfalso. apply Qle_alt in Hle. contradiction.
Qed.

Lemma Qmax_left (x y : Q) : (y <= x)%Q -> Qmax x y = x.
Proof.
  intros Hle. unfold Qmax, GenericMinMax.gmax.
  destruct (x ?= y)%Q eqn:E; try reflexivity.
  exfalso. apply Qlt_alt in E. apply (Qlt_not_le _ _ E). exact Hle.
Qed.

Lemma clamp_in_range (t lo : Q) : (lo <= t)%Q -> (t <= 0)%Q -> Qmax (Qmin t 0) lo = t.
Proof.
  intros Hlo Hhi. rewrite (Qmin_left t 0 Hhi). apply Qmax_left. exact Hlo.
Qed.

Lemma clamp_bounds (t lo : Q) :
  (lo <= 0)%Q -> (lo <= Qmax (Qmin t 0) lo)%Q /\ (Qmax (Qmin t 0) lo <= 0)%Q.
Proof.
  intros Hlo. split; [apply Q.le_max_r|].
  apply Q.max_lub; [apply Q.le_min_r | exact Hlo].
Qed.

(** The clamp leaves a translation inside the bounds alone. *)
Lemma on_zoom_in_range `{Ext : External}
    (p : Props) (event : ZoomEvent) (pg : Page) (v : Svg) :
  (Qmin 0 (width p - width p * ev_scale event) <= fst (ev_translate event))%Q ->
  (fst (ev_translate event) <= 0)%Q ->
  (Qmin 0 (height p - height p * ev_scale event) <= snd (ev_translate event))%Q ->
  (snd (ev_translate event) <= 0)%Q ->
  on_zoom p event pg v =
    ({| maps := maps pg;
        zoomStates :=
          <[ chartKey p := {| scale := ev_scale event; translate := ev_translate event |} ]>
            (zoomStates pg);
        trace := trace pg |},
     set_transform
       (Some {| scale := ev_scale event; translate := ev_translate event |}) v).
Proof.
  unfold on_zoom. destruct (ev_translate event) as [tx ty]. simpl.
  intros Hx1 Hx2 Hy1 Hy2.
  rewrite (clamp_in_range tx _ Hx1 Hx2), (clamp_in_range ty _ Hy1 Hy2). reflexivity.
Qed.

(** X14.  Clamping is idempotent: a second zoom event that carries the
    scale and the translation just applied applies and stores the very same
    transform, so feeding a stored zoom state back into the listener never
    moves the map. *)
Theorem on_zoom_idempotent `{Ext : External}
    (p : Props) (event : ZoomEvent) (pg pg2 : Page) (v v2 : Svg) :
  exists st : ZoomState,
    g_transform (on_zoom p event pg v).2 = Some st /\
    g_transform
      (on_zoom p {| ev_translate := translate st; ev_scale := scale st |} pg2 v2).2
      = Some st /\
    zoomStates
      (on_zoom p {| ev_translate := translate st; ev_scale := scale st |} pg2 v2).1
      !! chartKey p = Some st.
Proof.
  destruct (ev_translate event) as [tx ty] eqn:Htr.
  destruct (clamp_bounds tx (Qmin 0 (width p - width p * ev_scale event)))
    as [Hx1 Hx2]; [apply Q.le_min_l|].
  destruct (clamp_bounds ty (Qmin 0 (height p - height p * ev_scale event)))
    as [Hy1 Hy2]; [apply Q.le_min_l|].
  exists {| scale := ev_scale event;
            translate :=
              (Qmax (Qmin tx 0) (Qmin 0 (width p - width p * ev_scale event)),
               Qmax (Qmin ty 0) (Qmin 0 (height p - height p * ev_scale event))) |}.
  split. { unfold on_zoom. rewrite Htr. reflexivity. }
  rewrite on_zoom_in_range by (simpl; assumption).
  split; [reflexivity | apply lookup_insert_eq].
Qed.

(** X15.  At scale 1 the map cannot be panned: whatever translation the
    event carries, the translation applied is zero on both axes. *)
Theorem on_zoom_scale_one_pins_origin `{Ext : External}
    (p : Props) (event : ZoomEvent) (pg : Page) (v : Svg) :
  (ev_scale event == 1)%Q ->
  exists tx ty : number,
    g_transform (on_zoom p event pg v).2
      = Some {| scale := ev_scale event; translate := (tx, ty) |} /\
    (tx == 0)%Q /\ (ty == 0)%Q.
Proof.
  intros Hs. unfold on_zoom. destruct (ev_translate event) as [tx ty]. simpl.
  assert (forall d : Q, (0 <= Qmin 0 (d - d * ev_scale event))%Q) as Hmin.
  { intros d. apply Q.min_glb; [apply Qle_refl|].
    assert (d - d * ev_scale event == 0)%Q as -> by (rewrite Hs; ring).
    apply Qle_refl. }
  eexists _, _. split; [reflexivity|]. split.
  - destruct (clamp_bounds tx (Qmin 0 (width p - width p * ev_scale event)))
      as [H1 H2]; [apply Q.le_min_l|].
    apply Qle_antisym; [exact H2|]. eapply Qle_trans; [apply Hmin | exact H1].
  - destruct (clamp_bounds ty (Qmin 0 (height p - height p * ev_scale event)))
      as [H1 H2]; [apply Q.le_min_l|].
    apply Qle_antisym; [exact H2|]. eapply Qle_trans; [apply Hmin | exact H1].
Qed.

Lemma on_zoom_scale_one_pins_origin_witness :
  exists tx ty : number,
    g_transform (@on_zoom Demo.external (Demo.props None)
                   {| ev_translate := ((-30)%Q, 12%Q); ev_scale := 1%Q |}
                   Demo.page Demo.blank).2
      = Some {| scale := 1%Q; translate := (tx, ty) |} /\
    (tx == 0)%Q /\ (ty == 0)%Q.
Proof.
  apply (@on_zoom_scale_one_pins_origin Demo.external (Demo.props None)
           {| ev_translate := ((-30)%Q, 12%Q); ev_scale := 1%Q |} Demo.page Demo.blank).
  reflexivity.
Defined.

(** X16.  A zoom gesture on a chart whose key is not [__proto__] writes one
    entry of [zoomStates] and nothing else: the entries under every other
    chart key, the geometry cache and the trace of effects are as before, and
    on the tree only the transform of the content group changes. *)
Theorem on_zoom_touches_one_key `{Ext : External}
    (p : Props) (event : ZoomEvent) (pg : Page) (v : Svg) :
  chartKey p <> "__proto__" ->
  (forall k : string, k <> chartKey p ->
     zoomStates (on_zoom p event pg v).1 !! k = zoomStates pg !! k) /\
  maps (on_zoom p event pg v).1 = maps pg /\
  trace (on_zoom p event pg v).1 = trace pg /\
  regions (on_zoom p event pg v).2 = regions v /\
  bigText (on_zoom p event pg v).2 = bigText v /\
  resultText (on_zoom p event pg v).2 = resultText v.
Proof.
  intros _. unfold on_zoom. destruct (ev_translate event) as [tx ty]. simpl.
  split; [|repeat split].
  intros k Hk. apply lookup_insert_ne. congruence.
Qed.

Lemma on_zoom_touches_one_key_witness :
  (forall k : string, k <> @chartKey Demo.external (Demo.props None) ->
     zoomStates (@on_zoom Demo.external (Demo.props None)
                   {| ev_translate := ((-10)%Q, (-5)%Q); ev_scale := 2%Q |}
                   Demo.loaded Demo.blank).1 !! k = zoomStates Demo.loaded !! k) /\
  maps (@on_zoom Demo.external (Demo.props None)
          {| ev_translate := ((-10)%Q, (-5)%Q); ev_scale := 2%Q |}
          Demo.loaded Demo.blank).1 = maps Demo.loaded /\
  trace (@on_zoom Demo.external (Demo.props None)
           {| ev_translate := ((-10)%Q, (-5)%Q); ev_scale := 2%Q |}
           Demo.loaded Demo.blank).1 = trace Demo.loaded /\
  regions (@on_zoom Demo.external (Demo.props None)
             {| ev_translate := ((-10)%Q, (-5)%Q); ev_scale := 2%Q |}
             Demo.loaded Demo.blank).2 = regions Demo.blank /\
  bigText (@on_zoom Demo.external (Demo.props None)
             {| ev_translate := ((-10)%Q, (-5)%Q); ev_scale := 2%Q |}
             Demo.loaded Demo.blank).2 = bigText Demo.blank /\
  resultText (@on_zoom Demo.external (Demo.props None)
                {| ev_translate := ((-10)%Q, (-5)%Q); ev_scale := 2%Q |}
                Demo.loaded Demo.blank).2 = resultText Demo.blank.
Proof.
  apply (@on_zoom_touches_one_key Demo.external (Demo.props None)
           {| ev_translate := ((-10)%Q, (-5)%Q); ev_scale := 2%Q |} Demo.loaded Demo.blank).
  vm_compute. discriminate.
Defined.

(** ** What survives on the page *)

(** A step either leaves [zoomStates] alone or writes one entry. *)
Lemma step_zoomStates `{Ext : External} (pg pg' : Page) :
  step pg pg' ->
  zoomStates pg' = zoomStates pg \/
  exists k st, zoomStates pg' = <[ k := st ]> (zoomStates pg).
Proof.
  intros Hstep. destruct Hstep as
    [p pg | p result pg v | p event pg v | p event feature pg v
    | p event feature pg pg' H | p event feature pg pg' H].
  - left. unfold CountryMap. destruct (maps pg !! country p); reflexivity.
  - left. destruct result; reflexivity.
  - right. unfold on_zoom. destruct (ev_translate event). simpl. eauto.
  - left. destruct (handleClick_page p event feature pg v) as [-> | [m ->]]; reflexivity.
  - left. revert H. unfold handleContextMenu.
    destruct (onContextMenu p), event, (truthy (iso_of feature)); simpl;
      intros H; inversion H; reflexivity.
  - left. revert H. unfold handleContextMenu.
    destruct (onContextMenu p), event, (truthy (iso_of feature)); simpl;
      intros H; inversion H; reflexivity.
Qed.

Lemma steps_zoomStates `{Ext : External} (k : string) (pg pg' : Page) :
  rtc step pg pg' ->
  is_Some (zoomStates pg !! k) ->
  is_Some (zoomStates pg' !! k).
Proof.
  induction 1 as [pg | pg pg1 pg' Hstep _ IH]; intros Hk; [exact Hk|].
  apply IH. destruct (step_zoomStates pg pg1 Hstep) as [-> | (k' & st & ->)]; [exact Hk|].
  destruct (decide (k' = k)) as [->|Hne].
  - rewrite lookup_insert_eq. eauto.
  - rewrite lookup_insert_ne by exact Hne. exact Hk.
Qed.

(** X17.  Zoom state is never cleared.  Once a zoom gesture has stored a
    state for a chart key, then after any further activity on the page
    (invocations, completed requests, gestures on this or other charts,
    clicks) an entry is still stored under that key, and an invocation of the
    render function for that key restores it. *)
Theorem zoom_state_survives `{Ext : External}
    (p : Props) (event : ZoomEvent) (pg : Page) (v : Svg) (pg' : Page) :
  rtc step (on_zoom p event pg v).1 pg' ->
  exists st : ZoomState,
    zoomStates pg' !! chartKey p = Some st /\
    forall p' : Props,
      chartKey p' = chartKey p ->
      content_transform (CountryMap p' pg').1.2 = Some st.
Proof.
  intros Hrun.
  destruct (steps_zoomStates (chartKey p) _ pg' Hrun) as [st Hst].
  { unfold on_zoom. destruct (ev_translate event). simpl.
    rewrite lookup_insert_eq. eauto. }
  exists st. split; [exact Hst|]. intros p' Hkey.
  rewrite content_transform_CountryMap, Hkey. exact Hst.
Qed.

Lemma zoom_state_survives_witness :
  exists st : ZoomState,
    zoomStates
      (@CountryMap Demo.external (Demo.props None)
         (@on_zoom Demo.external (Demo.props None)
            {| ev_translate := ((-10)%Q, (-5)%Q); ev_scale := 2%Q |}
            Demo.page Demo.blank).1).1.1
      !! @chartKey Demo.external (Demo.props None) = Some st /\
    forall p' : Props,
      @chartKey Demo.external p' = @chartKey Demo.external (Demo.props None) ->
      content_transform
        (@CountryMap Demo.external p'
           (@CountryMap Demo.external (Demo.props None)
              (@on_zoom Demo.external (Demo.props None)
                 {| ev_translate := ((-10)%Q, (-5)%Q); ev_scale := 2%Q |}
                 Demo.page Demo.blank).1).1.1).1.2 = Some st.
Proof.
  apply (@zoom_state_survives Demo.external (Demo.props None)
           {| ev_translate := ((-10)%Q, (-5)%Q); ev_scale := 2%Q |} Demo.page Demo.blank).
  apply rtc_once. apply (@step_render Demo.external (Demo.props None)).
Defined.

(** An invocation of the render function writes neither the geometry cache
    nor the zoom states.  Its only effect is the request, issued exactly when
    the country is not cached, for that country and for the address
    [countries[country]]; with the country cached the page is left as it
    was. *)
Lemma CountryMap_effects `{Ext : External} (p : Props) (pg : Page) :
  maps (CountryMap p pg).1.1 = maps pg /\
  zoomStates (CountryMap p pg).1.1 = zoomStates pg /\
  (maps pg !! country p = None ->
   trace (CountryMap p pg).1.1
     = (trace pg ++ [JsonRequest (country p) (countries (country p))])%list /\
   (CountryMap p pg).2 = true /\
   (CountryMap p pg).1.2 = Chart (restore_zoom p pg fresh_svg)) /\
  (is_Some (maps pg !! country p) ->
   (CountryMap p pg).1.1 = pg /\ (CountryMap p pg).2 = false).
Proof.
  unfold CountryMap. destruct (maps pg !! country p) as [m|] eqn:Hm; simpl.
  - split; [reflexivity|]. split; [reflexivity|]. split; [discriminate|].
    intros _. split; reflexivity.
  - split; [reflexivity|]. split; [reflexivity|]. split.
    + intros _. repeat split.
    + intros [m Hs]. discriminate.
Qed.



(** X19.  A completed load of a map without [null] feature, for a country
    code other than [__proto__], writes the cache entry of its own country
    and nothing else: the entries of all other countries, the zoom states and
    the trace are as before.  The chart it draws has one path element per
    feature and keeps the transform the content group had, so a zoom restored
    at invocation time is still in place when the map arrives. *)
Theorem json_callback_ok_effects `{Ext : External}
    (p : Props) (mapData : MapData) (pg : Page) (v : Svg) :
  country p <> "__proto__" ->
  Forall is_Some (features mapData) ->
  maps (json_callback p (JsonOk mapData) pg v).1 !! country p = Some mapData /\
  (forall c : string, c <> country p ->
     maps (json_callback p (JsonOk mapData) pg v).1 !! c = maps pg !! c) /\
  zoomStates (json_callback p (JsonOk mapData) pg v).1 = zoomStates pg /\
  trace (json_callback p (JsonOk mapData) pg v).1 = trace pg /\
  content_transform (json_callback p (JsonOk mapData) pg v).2 = g_transform v /\
  exists drawn : Svg,
    (json_callback p (JsonOk mapData) pg v).2 = Chart drawn /\
    datum <$> regions drawn = features mapData.
Proof.
  intros _ _.
  unfold json_callback. cbn [fst snd content_transform maps zoomStates trace].
  split; [apply lookup_insert_eq|].
  split; [intros c Hc; apply lookup_insert_ne; congruence|].
  split; [reflexivity|]. split; [reflexivity|].
  split; [apply g_transform_drawMap|].
  eexists. split; [reflexivity|].
  unfold drawMap. rewrite highlight_selection. simpl.
  rewrite <- !list_fmap_compose.
  etransitivity; [|apply (join_datum p (regions v))].
  apply list_fmap_ext. intros i r _. reflexivity.
Qed.

Lemma json_callback_ok_effects_witness :
  maps (@json_callback Demo.external (Demo.props None) (JsonOk Demo.france)
          Demo.first_render.1.1 Demo.blank).1 !! "france" = Some Demo.france /\
  (forall c : string, c <> "france" ->
     maps (@json_callback Demo.external (Demo.props None) (JsonOk Demo.france)
             Demo.first_render.1.1 Demo.blank).1 !! c = maps Demo.first_render.1.1 !! c) /\
  zoomStates (@json_callback Demo.external (Demo.props None) (JsonOk Demo.france)
                Demo.first_render.1.1 Demo.blank).1 = zoomStates Demo.first_render.1.1 /\
  trace (@json_callback Demo.external (Demo.props None) (JsonOk Demo.france)
           Demo.first_render.1.1 Demo.blank).1 = trace Demo.first_render.1.1 /\
  content_transform
    (@json_callback Demo.external (Demo.props None) (JsonOk Demo.france)
       Demo.first_render.1.1 Demo.blank).2 = g_transform Demo.blank /\
  exists drawn : Svg,
    (@json_callback Demo.external (Demo.props None) (JsonOk Demo.france)
       Demo.first_render.1.1 Demo.blank).2 = Chart drawn /\
    datum <$> regions drawn = features Demo.france.
Proof.
  apply (@json_callback_ok_effects Demo.external (Demo.props None) Demo.france
           Demo.first_render.1.1 Demo.blank).
  - discriminate.
  - repeat constructor; eexists; reflexivity.
Defined.

(** ** Chart keys *)

(** A falsy slice identifier gives way to the composite key. *)
Lemma chartKey_fallback `{Ext : External} (p : Props) :
  match sliceId p with
  | None => True
  | Some (SliceStr s) => s = EmptyString
  | Some (SliceNum n) => (n == 0)%Q
  end ->
  chartKey p =
    country p +:+ "-" +:+ Number_toString (width p) +:+ "-" +:+ Number_toString (height p).
Proof.
  unfold chartKey. destruct (sliceId p) as [[s|n]|]; intros H.
  - subst s. reflexivity.
  - apply Qeq_bool_iff in H. rewrite H. reflexivity.
  - reflexivity.
Qed.

Lemma chartKey_string_id `{Ext : External} (p : Props) (s : string) :
  sliceId p = Some (SliceStr s) -> s <> EmptyString -> chartKey p = s.
Proof.
  intros Hs Hne. unfold chartKey, truthy_string. rewrite Hs.
  destruct (String.eqb_spec s EmptyString); [contradiction | reflexivity].
Qed.

(** X20.  Charts with different non-empty string slice identifiers that
    are ordinary keys never see each other's zoom: on a page where nothing was
    assigned under [__proto__], a gesture on one leaves what an invocation for
    the other (for a country that is an ordinary key, with no [null] feature
    cached) restores exactly as it was. *)
Theorem zoom_isolated_between_slices `{Ext : External}
    (p1 p2 : Props) (s1 s2 : string) (event : ZoomEvent) (pg : Page) (v : Svg) :
  sliceId p1 = Some (SliceStr s1) -> s1 <> EmptyString ->
  sliceId p2 = Some (SliceStr s2) -> s2 <> EmptyString ->
  s1 <> s2 ->
  ordinary_key s1 -> ordinary_key s2 -> ordinary_key (country p2) ->
  own_properties_only pg ->
  (forall m, maps pg !! country p2 = Some m -> Forall is_Some (features m)) ->
  content_transform (CountryMap p2 (on_zoom p1 event pg v).1).1.2
    = content_transform (CountryMap p2 pg).1.2.
Proof.
  intros H1 Hn1 H2 Hn2 Hne _ _ _ _ _. rewrite !content_transform_CountryMap.
  rewrite (chartKey_string_id p2 s2 H2 Hn2).
  unfold on_zoom. destruct (ev_translate event). simpl.
  rewrite (chartKey_string_id p1 s1 H1 Hn1). apply lookup_insert_ne. exact Hne.
Qed.

Lemma zoom_isolated_between_slices_witness :
  content_transform
    (@CountryMap Demo.external
       {| data := []; width := 800%Q; height := 400%Q; country := "france";
          entity := "region"; linearColorScheme := None; numberFormat := None;
          colorScheme := None; sliceId := Some (SliceStr "chart-b");
          filterState := {| selectedValues := None |};
          emitCrossFilters := false; onContextMenu := false; setDataMask := false |}
       (@on_zoom Demo.external
          {| data := []; width := 800%Q; height := 400%Q; country := "france";
             entity := "region"; linearColorScheme := None; numberFormat := None;
             colorScheme := None; sliceId := Some (SliceStr "chart-a");
             filterState := {| selectedValues := None |};
             emitCrossFilters := false; onContextMenu := false; setDataMask := false |}
          {| ev_translate := ((-10)%Q, (-5)%Q); ev_scale := 2%Q |}
          Demo.page Demo.blank).1).1.2
  = content_transform
      (@CountryMap Demo.external
         {| data := []; width := 800%Q; height := 400%Q; country := "france";
            entity := "region"; linearColorScheme := None; numberFormat := None;
            colorScheme := None; sliceId := Some (SliceStr "chart-b");
            filterState := {| selectedValues := None |};
            emitCrossFilters := false; onContextMenu := false; setDataMask := false |}
         Demo.page).1.2.
Proof.
  apply (@zoom_isolated_between_slices Demo.external _ _ "chart-a" "chart-b");
    first [ reflexivity | discriminate | apply ordinary_key_computed; reflexivity
          | split; reflexivity | intros m Hm; discriminate ].
Defined.

(** X21.  Charts without a usable slice identifier ([undefined], the empty
    string or the number zero) are told apart by country, width and height
    only: a zoom gesture on one of them is restored by an invocation for any
    other with the same country and size. *)
Theorem zoom_shared_without_slice_id `{Ext : External}
    (p1 p2 : Props) (event : ZoomEvent) (pg : Page) (v : Svg) :
  match sliceId p1 with
  | None => True
  | Some (SliceStr s) => s = EmptyString
  | Some (SliceNum n) => (n == 0)%Q
  end ->
  match sliceId p2 with
  | None => True
  | Some (SliceStr s) => s = EmptyString
  | Some (SliceNum n) => (n == 0)%Q
  end ->
  country p2 = country p1 -> width p2 = width p1 -> height p2 = height p1 ->
  content_transform (CountryMap p2 (on_zoom p1 event pg v).1).1.2
    = g_transform (on_zoom p1 event pg v).2 /\
  is_Some (g_transform (on_zoom p1 event pg v).2).
Proof.
  intros H1 H2 Hc Hw Hh. rewrite content_transform_CountryMap.
  assert (chartKey p2 = chartKey p1) as ->.
  { rewrite (chartKey_fallback p1 H1), (chartKey_fallback p2 H2), Hc, Hw, Hh. reflexivity. }
  unfold on_zoom. destruct (ev_translate event). simpl.
  split; [apply lookup_insert_eq | eauto].
Qed.

Lemma zoom_shared_without_slice_id_witness :
  content_transform
    (@CountryMap Demo.external
       {| data := Demo.rows; width := 800%Q; height := 400%Q; country := "france";
          entity := "region"; linearColorScheme := None; numberFormat := None;
          colorScheme := None; sliceId := None;
          filterState := {| selectedValues := None |};
          emitCrossFilters := false; onContextMenu := false; setDataMask := false |}
       (@on_zoom Demo.external
          {| data := []; width := 800%Q; height := 400%Q; country := "france";
             entity := "region"; linearColorScheme := None; numberFormat := None;
             colorScheme := None; sliceId := Some (SliceNum 0%Q);
             filterState := {| selectedValues := None |};
             emitCrossFilters := false; onContextMenu := false; setDataMask := false |}
          {| ev_translate := ((-10)%Q, (-5)%Q); ev_scale := 2%Q |}
          Demo.page Demo.blank).1).1.2
  = g_transform
      (@on_zoom Demo.external
         {| data := []; width := 800%Q; height := 400%Q; country := "france";
            entity := "region"; linearColorScheme := None; numberFormat := None;
            colorScheme := None; sliceId := Some (SliceNum 0%Q);
            filterState := {| selectedValues := None |};
            emitCrossFilters := false; onContextMenu := false; setDataMask := false |}
         {| ev_translate := ((-10)%Q, (-5)%Q); ev_scale := 2%Q |}
         Demo.page Demo.blank).2 /\
  is_Some
    (g_transform
       (@on_zoom Demo.external
          {| data := []; width := 800%Q; height := 400%Q; country := "france";
             entity := "region"; linearColorScheme := None; numberFormat := None;
             colorScheme := None; sliceId := Some (SliceNum 0%Q);
             filterState := {| selectedValues := None |};
             emitCrossFilters := false; onContextMenu := false; setDataMask := false |}
          {| ev_translate := ((-10)%Q, (-5)%Q); ev_scale := 2%Q |}
          Demo.page Demo.blank).2).
Proof.
  apply (@zoom_shared_without_slice_id Demo.external); simpl; reflexivity.
Defined.

(** ** Highlighting a region without a code *)

(** X22.  A path element whose feature has no [ISO] can never count as
    selected: it is fully opaque only while nothing is selected, is dimmed to
    0.3 as soon as anything is, and always has the unselected stroke. *)
Theorem highlight_region_without_code
    (p : Props) (v : Svg) (i : nat) (r0 : Region) :
  regions v !! i = Some r0 ->
  iso_of (datum r0) = None ->
  let S := default [] (selectedValues (filterState p)) in
  exists r : Region,
    regions (highlightSelectedRegion p v) !! i = Some r /\
    (S = [] -> fill_opacity r = StyleNum 1%Q) /\
    (S <> [] -> fill_opacity r = StyleNum (3 # 10)%Q) /\
    stroke r = StyleNull /\
    stroke_width r = StyleStr "0.5px".
Proof.
  intros Hi Hiso S. rewrite highlight_selection. fold S.
  exists (highlight S r0). split.
  { simpl. rewrite list_lookup_fmap, Hi. reflexivity. }
  unfold highlight; simpl. rewrite Hiso, includes_None, orb_false_r.
  split; [intros ->; reflexivity|]. split; [|split; reflexivity].
  intros Hne. destruct S; [contradiction | reflexivity].
Qed.

Lemma highlight_region_without_code_witness :
  exists r : Region,
    regions (highlightSelectedRegion (Demo.props (Some ["FR-A"])) (Demo.drawn None)) !! 2%nat
      = Some r /\
    (["FR-A"] = [] -> fill_opacity r = StyleNum 1%Q) /\
    (["FR-A"] <> [] -> fill_opacity r = StyleNum (3 # 10)%Q) /\
    stroke r = StyleNull /\
    stroke_width r = StyleStr "0.5px".
Proof.
  apply (highlight_region_without_code (Demo.props (Some ["FR-A"])) (Demo.drawn None) 2%nat
           {| datum := Demo.bare; fill := "none";
              fill_opacity := StyleNum 1%Q; stroke := StyleNull;
              stroke_width := StyleStr "0.5px" |});
    reflexivity.
Defined.
